(** * SIEM integration module of the CTI platform

    A shallow embedding of [api/integrations/siem_connector.py]: the shared
    severity and confidence mappers, the vendor connectors (Splunk, QRadar,
    Sentinel, Elastic) with the payloads they build, the connector factory
    and the broadcast orchestrator [CTISIEMIntegration].

    Conventions of the embedding.
    - A Python [str] is a [string] whose characters are the code points
      0..255; [str_encode] is its UTF-8 encoding.  [bytes] is [list byte].
    - A Python [int] is a [Z].  Floats do not occur.
    - A dynamically typed value ([Any]) is a [pyval].
    - A [dict] keyed by names and only read through lookups, membership and
      iteration is a [gmap]; a dict literal that is serialised keeps its
      entries in order ([PyDict]).
    - A call that may raise returns a [result], whose exceptions [exn] are
      subclasses of [Exception].  What a push can raise outside that
      hierarchy (task cancellation, interpreter exit, any other
      [BaseException]) is a [base_exception]; the orchestrator is modelled a
      second time, as [broadcast_intelligence_any], over connectors whose
      push may raise those too.
    - The clock and the HTTP transport are read from an environment [Env].
    - The pushes of a broadcast run as asyncio tasks; a task is modelled by
      its outcome, a function of the environment and the record, so the
      order in which tasks complete plays no part.
    - Logging has no effect on any value and is left out. *)

From Stdlib Require Import ZArith List Strings.String Strings.Ascii Strings.Byte.
From Stdlib Require Import Numbers.DecimalString Lia Bool.
From stdpp Require Import base option list gmap strings fin_maps.

Set Warnings "-register-all".
Local Open Scope string_scope.
Local Open Scope Z_scope.

(** ** Python runtime *)

(** Exceptions raised by the modelled code and by the library calls it makes. *)
Inductive exn : Type :=
| NotImplementedError (msg : string)
| TypeError
| ValueError
| BinasciiError
| IndexError
| RequestException (msg : string).

(** Outcome of a call: a returned value or a raised exception. *)
Inductive result (A : Type) : Type :=
| Return (a : A)
| Raise (e : exn).
Arguments Return {A} a.
Arguments Raise {A} e.

#[global] Instance result_ret : MRet result := fun _ a => Return a.
#[global] Instance result_bind : MBind result := fun _ _ f m =>
  match m with
  | Return a => f a
  | Raise e => Raise e
  end.

(** [try: body except Exception as e: handler e]. *)
Definition try_except {A} (body : result A) (handler : exn -> result A) : result A :=
  match body with
  | Return a => Return a
  | Raise e => handler e
  end.

(** Values of type [Any] that a record or a payload can hold. *)
Inductive pyval : Type :=
| PyNone
| PyBool (b : bool)
| PyInt (n : Z)
| PyStr (s : string)
| PyList (xs : list pyval)
| PyDict (kvs : list (string * pyval)).

(** [str(n)] for an int. *)
Definition str_of_int (n : Z) : string := NilZero.string_of_int (Z.to_int n).

Definition hex_digit (d : Z) : ascii :=
  ascii_of_N (Z.to_N (if d <? 10 then 48 + d else 87 + d)).

(** Two lowercase hexadecimal digits of a value below 256. *)
Definition hex2 (c : Z) : string :=
  String (hex_digit (c / 16)) (String (hex_digit (c mod 16)) EmptyString).

Definition ord (c : ascii) : Z := Z.of_N (N_of_ascii c).
Definition chr (n : Z) : ascii := ascii_of_N (Z.to_N n).

(** [sep.join(parts)] on strings. *)
Fixpoint str_join (sep : string) (parts : list string) : string :=
  match parts with
  | [] => ""
  | [p] => p
  | p :: rest => p ++ sep ++ str_join sep rest
  end.

(** The characters of a string, each as a string of length one. *)
Fixpoint str_chars (s : string) : list string :=
  match s with
  | EmptyString => []
  | String c rest => String c EmptyString :: str_chars rest
  end.

Fixpoint str_contains (c : ascii) (s : string) : bool :=
  match s with
  | EmptyString => false
  | String c' rest => if Ascii.eqb c c' then true else str_contains c rest
  end.

(** The double quote character. *)
Definition dquote : ascii := chr 34.

(** Code points below 256 that [str.isprintable] rejects. *)
Definition unprintable (n : Z) : bool :=
  (n <? 32) || ((127 <=? n) && (n <=? 160)) || (n =? 173).

Fixpoint repr_chars (quote : ascii) (s : string) : string :=
  match s with
  | EmptyString => ""
  | String c rest =>
      let n := ord c in
      (if Ascii.eqb c quote || (n =? 92) then String "\" (String c "")
       else if n =? 9 then "\t"
       else if n =? 10 then "\n"
       else if n =? 13 then "\r"
       else if unprintable n then "\x" ++ hex2 n
       else String c "") ++ repr_chars quote rest
  end.

(** [repr(s)] for a str: single quotes unless the text has a single quote
    and no double quote. *)
Definition repr_str (s : string) : string :=
  let quote := if str_contains "'" s && negb (str_contains dquote s)
               then dquote else "'"%char in
  String quote (repr_chars quote s) ++ String quote "".

(** [repr(v)]. *)
Fixpoint py_repr (v : pyval) : string :=
  match v with
  | PyNone => "None"
  | PyBool true => "True"
  | PyBool false => "False"
  | PyInt n => str_of_int n
  | PyStr s => repr_str s
  | PyList xs => "[" ++ str_join ", " (List.map py_repr xs) ++ "]"
  | PyDict kvs =>
      "{" ++ str_join ", "
               (List.map (fun kv => repr_str (fst kv) ++ ": " ++ py_repr (snd kv)) kvs)
          ++ "}"
  end.

(** [str(v)], which is what an f-string placeholder [{v}] renders. *)
Definition py_str (v : pyval) : string :=
  match v with
  | PyStr s => s
  | _ => py_repr v
  end.

(** Truth value of [v] in a condition. *)
Definition truthy (v : pyval) : bool :=
  match v with
  | PyNone => false
  | PyBool b => b
  | PyInt n => negb (n =? 0)
  | PyStr s => negb (String.eqb s "")
  | PyList xs => match xs with [] => false | _ => true end
  | PyDict kvs => match kvs with [] => false | _ => true end
  end.

(** The integer a value stands for where the code compares it with an int
    or divides it ([>=], [max], [//]): ints and bools; anything else makes
    the operation raise [TypeError]. *)
Definition int_operand (v : pyval) : result Z :=
  match v with
  | PyInt n => Return n
  | PyBool b => Return (Z.b2z b)
  | _ => Raise TypeError
  end.

Definition str_item (v : pyval) : result string :=
  match v with
  | PyStr s => Return s
  | _ => Raise TypeError
  end.

Fixpoint str_items (xs : list pyval) : result (list string) :=
  match xs with
  | [] => Return []
  | x :: rest =>
      match str_item x with
      | Return s => match str_items rest with
                    | Return ss => Return (s :: ss)
                    | Raise e => Raise e
                    end
      | Raise e => Raise e
      end
  end.

(** [sep.join(v)] for a value: iterates a list, the characters of a str or
    the keys of a dict; every item must be a str. *)
Definition py_join (sep : string) (v : pyval) : result string :=
  match v with
  | PyList xs => ss ← str_items xs; Return (str_join sep ss)
  | PyStr s => Return (str_join sep (str_chars s))
  | PyDict kvs => Return (str_join sep (List.map fst kvs))
  | _ => Raise TypeError
  end.

(** [s.encode()]: UTF-8. *)
Fixpoint str_encode (s : string) : list byte :=
  match s with
  | EmptyString => []
  | String c rest =>
      let n := ord c in
      (if n <? 128 then [byte_of_ascii c]
       else [byte_of_ascii (chr (Z.lor 192 (Z.shiftr n 6)));
             byte_of_ascii (chr (Z.lor 128 (Z.land n 63)))])
      ++ str_encode rest
  end.

(** [b.decode('utf-8')] for bytes below 128 (the only ones decoded here). *)
Definition ascii_decode (b : list byte) : string :=
  string_of_list_ascii (List.map ascii_of_byte b).

(** ** Library calls the module makes *)

Definition Z_of_byte (b : byte) : Z := Z.of_N (Byte.to_N b).

Definition byte_of_Z (z : Z) : byte :=
  match Byte.of_N (Z.to_N (z mod 256)) with
  | Some b => b
  | None => x00
  end.

(** The [n] low bytes of [v], most significant first. *)
Fixpoint be_bytes (n : nat) (v : Z) : list byte :=
  match n with
  | O => []
  | S n' => byte_of_Z (Z.shiftr v (8 * Z.of_nat n')) :: be_bytes n' v
  end.

(** Pieces of [size] items; [fuel] bounds the number of pieces. *)
Fixpoint chunks {A} (fuel size : nat) (l : list A) : list (list A) :=
  match fuel with
  | O => []
  | S fuel' =>
      match l with
      | [] => []
      | _ => firstn size l :: chunks fuel' size (skipn size l)
      end
  end.

(** [hashlib]: SHA-256 as in FIPS 180-4. *)
Module hashlib.

Definition w32 (x : Z) : Z := Z.land x 0xffffffff.
Definition add32 (x y : Z) : Z := w32 (x + y).
Definition rotr (n x : Z) : Z :=
  w32 (Z.lor (Z.shiftr x n) (Z.shiftl x (32 - n))).
Definition not32 (x : Z) : Z := Z.lxor x 0xffffffff.

Definition Ch (x y z : Z) : Z := Z.lxor (Z.land x y) (Z.land (not32 x) z).
Definition Maj (x y z : Z) : Z :=
  Z.lxor (Z.lxor (Z.land x y) (Z.land x z)) (Z.land y z).
Definition Sigma0 (x : Z) : Z := Z.lxor (Z.lxor (rotr 2 x) (rotr 13 x)) (rotr 22 x).
Definition Sigma1 (x : Z) : Z := Z.lxor (Z.lxor (rotr 6 x) (rotr 11 x)) (rotr 25 x).
Definition sigma0 (x : Z) : Z := Z.lxor (Z.lxor (rotr 7 x) (rotr 18 x)) (Z.shiftr x 3).
Definition sigma1 (x : Z) : Z := Z.lxor (Z.lxor (rotr 17 x) (rotr 19 x)) (Z.shiftr x 10).

(** The largest [r] below [2 ^ bits] with [r ^ k <= n], found bit by bit. *)
Fixpoint root_bits (k : Z) (bits : nat) (n acc : Z) : Z :=
  match bits with
  | O => acc
  | S b =>
      let candidate := acc + 2 ^ Z.of_nat b in
      if candidate ^ k <=? n then root_bits k b n candidate
      else root_bits k b n acc
  end.

Definition is_prime (n : Z) : bool :=
  forallb (fun d => negb (n mod Z.of_nat d =? 0)) (seq 2 (Z.to_nat n - 2)).

Definition first_primes (count : nat) : list Z :=
  firstn count (List.filter is_prime (List.map Z.of_nat (seq 2 400))).

(** The first 32 bits of the fractional part of the [k]-th root of [p]. *)
Definition root_fraction (k : Z) (p : Z) : Z :=
  w32 (root_bits k 64 (p * 2 ^ (32 * k)) 0).

(** Round constants: from the cube roots of the first 64 primes. *)
Definition K : list Z :=
  Eval vm_compute in List.map (root_fraction 3) (first_primes 64).

(** Initial hash value: from the square roots of the first 8 primes. *)
Definition H0 : list Z :=
  Eval vm_compute in List.map (root_fraction 2) (first_primes 8).

(** Message followed by the bit 1, zero bytes up to 56 modulo 64 and the
    bit length on eight bytes. *)
Definition pad (msg : list byte) : list byte :=
  let len := Z.of_nat (length msg) in
  (msg ++ [x80] ++ repeat x00 (Z.to_nat ((55 - len) mod 64))
       ++ be_bytes 8 (8 * len))%list.

Definition word_of_bytes (bs : list byte) : Z :=
  fold_left (fun acc b => acc * 256 + Z_of_byte b) bs 0.

Definition next_word (win : list Z) : Z :=
  add32 (add32 (sigma1 (nth 14 win 0)) (nth 9 win 0))
        (add32 (sigma0 (nth 1 win 0)) (nth 0 win 0)).

(** The next [n] words of the message schedule; [win] holds the sixteen
    words from the current one on. *)
Fixpoint schedule (n : nat) (win : list Z) : list Z :=
  match n with
  | O => []
  | S n' =>
      match win with
      | [] => []
      | w :: rest => w :: schedule n' (rest ++ [next_word win])%list
      end
  end.

Definition round (st : list Z) (kw : Z * Z) : list Z :=
  match st with
  | [a; b; c; d; e; f; g; h] =>
      let T1 := add32 (add32 (add32 h (Sigma1 e)) (add32 (Ch e f g) (fst kw))) (snd kw) in
      let T2 := add32 (Sigma0 a) (Maj a b c) in
      [add32 T1 T2; a; b; c; add32 d T1; e; f; g]
  | _ => st
  end.

Definition compress (h : list Z) (block : list byte) : list Z :=
  let w := schedule 64 (List.map word_of_bytes (chunks 16 4 block)) in
  let st := fold_left round (combine K w) h in
  List.map (fun p => add32 (fst p) (snd p)) (combine h st).

(** [hashlib.sha256(data).digest()]. *)
Definition sha256_digest (data : list byte) : list byte :=
  let padded := pad data in
  let h := fold_left compress (chunks (length padded) 64 padded) H0 in
  List.concat (List.map (be_bytes 4) h).

Definition hex (bs : list byte) : string :=
  String.concat "" (List.map (fun b => hex2 (Z_of_byte b)) bs).

(** [hashlib.sha256(data).hexdigest()]. *)
Definition sha256_hexdigest (data : list byte) : string :=
  hex (sha256_digest data).

Definition sha256_block_size : nat := 64.

End hashlib.

(** [hmac]: HMAC as in RFC 2104, with SHA-256 as the digest. *)
Module hmac.

Definition xor_pad (pad : Z) (key : list byte) : list byte :=
  List.map (fun b => byte_of_Z (Z.lxor (Z_of_byte b) pad)) key.

Definition block_key (key : list byte) : list byte :=
  let k := if (hashlib.sha256_block_size <? length key)%nat
           then hashlib.sha256_digest key else key in
  (k ++ repeat x00 (hashlib.sha256_block_size - length k))%list.

(** [hmac.new(key, msg, hashlib.sha256).digest()]. *)
Definition new_sha256_digest (key msg : list byte) : list byte :=
  let k := block_key key in
  hashlib.sha256_digest
    (xor_pad 0x5c k ++ hashlib.sha256_digest (xor_pad 0x36 k ++ msg))%list.

End hmac.

(** [base64]: the standard alphabet of RFC 4648, decoding as [binascii]
    does without validation. *)
Module base64.

Definition alphabet : string :=
  "ABCDEFGHIJKLMNOPQRSTUVWXYZabcdefghijklmnopqrstuvwxyz0123456789+/".

Definition pad_char : ascii := "="%char.

Definition enc (i : Z) : byte :=
  match String.get (Z.to_nat i) alphabet with
  | Some c => byte_of_ascii c
  | None => byte_of_ascii pad_char
  end.

(** [base64.b64encode(b)]. *)
Fixpoint b64encode (b : list byte) : list byte :=
  match b with
  | [] => []
  | [x] =>
      let x := Z_of_byte x in
      [enc (Z.shiftr x 2); enc (Z.shiftl (Z.land x 3) 4);
       byte_of_ascii pad_char; byte_of_ascii pad_char]
  | [x; y] =>
      let x := Z_of_byte x in
      let y := Z_of_byte y in
      [enc (Z.shiftr x 2);
       enc (Z.lor (Z.shiftl (Z.land x 3) 4) (Z.shiftr y 4));
       enc (Z.shiftl (Z.land y 15) 2); byte_of_ascii pad_char]
  | x :: y :: z :: rest =>
      let x := Z_of_byte x in
      let y := Z_of_byte y in
      let z := Z_of_byte z in
      enc (Z.shiftr x 2)
      :: enc (Z.lor (Z.shiftl (Z.land x 3) 4) (Z.shiftr y 4))
      :: enc (Z.lor (Z.shiftl (Z.land y 15) 2) (Z.shiftr z 6))
      :: enc (Z.land z 63)
      :: b64encode rest
  end.

(** Value of a character of the alphabet. *)
Definition dec (c : ascii) : option Z :=
  let n := ord c in
  if (65 <=? n) && (n <=? 90) then Some (n - 65)
  else if (97 <=? n) && (n <=? 122) then Some (n - 71)
  else if (48 <=? n) && (n <=? 57) then Some (n + 4)
  else if n =? 43 then Some 62
  else if n =? 47 then Some 63
  else None.

(** The decoding loop: [quad_pos] is the position in the current group of
    four, [leftchar] the bits not yet written, [pads] the padding
    characters seen since the last data character.  Characters outside
    the alphabet are skipped; a complete padding ends the input. *)
Fixpoint a2b_base64 (data : string) (quad_pos leftchar pads : Z)
         (out : list byte) : result (list byte) :=
  match data with
  | EmptyString =>
      if quad_pos =? 0 then Return out else Raise BinasciiError
  | String c rest =>
      if Ascii.eqb c pad_char then
        if 2 <=? quad_pos then
          if 4 <=? quad_pos + (pads + 1) then Return out
          else a2b_base64 rest quad_pos leftchar (pads + 1) out
        else a2b_base64 rest quad_pos leftchar pads out
      else
        match dec c with
        | None => a2b_base64 rest quad_pos leftchar pads out
        | Some v =>
            if quad_pos =? 0 then a2b_base64 rest 1 v 0 out
            else if quad_pos =? 1 then
              a2b_base64 rest 2 (Z.land v 15) 0
                (out ++ [byte_of_Z (Z.lor (Z.shiftl leftchar 2) (Z.shiftr v 4))])%list
            else if quad_pos =? 2 then
              a2b_base64 rest 3 (Z.land v 3) 0
                (out ++ [byte_of_Z (Z.lor (Z.shiftl leftchar 4) (Z.shiftr v 2))])%list
            else
              a2b_base64 rest 0 0 0
                (out ++ [byte_of_Z (Z.lor (Z.shiftl leftchar 6) v)])%list
        end
  end.

Fixpoint is_ascii (s : string) : bool :=
  match s with
  | EmptyString => true
  | String c rest => (ord c <? 128) && is_ascii rest
  end.

(** [base64.b64decode(s)] for a str argument. *)
Definition b64decode (s : string) : result (list byte) :=
  if is_ascii s then a2b_base64 s 0 0 0 [] else Raise ValueError.

End base64.

(** [json]: the encoder with its default settings. *)
Module json.

Fixpoint escape (s : string) : string :=
  match s with
  | EmptyString => ""
  | String c rest =>
      let n := ord c in
      (if n =? 34 then String "\" (String dquote "")
       else if n =? 92 then "\\"
       else if n =? 8 then "\b"
       else if n =? 12 then "\f"
       else if n =? 10 then "\n"
       else if n =? 13 then "\r"
       else if n =? 9 then "\t"
       else if (n <? 32) || (126 <? n) then "\u00" ++ hex2 n
       else String c "") ++ escape rest
  end.

Definition encode_str (s : string) : string :=
  String dquote (escape s) ++ String dquote "".

(** [json.dumps(v)]. *)
Fixpoint dumps (v : pyval) : string :=
  match v with
  | PyNone => "null"
  | PyBool true => "true"
  | PyBool false => "false"
  | PyInt n => str_of_int n
  | PyStr s => encode_str s
  | PyList xs => "[" ++ str_join ", " (List.map dumps xs) ++ "]"
  | PyDict kvs =>
      "{" ++ str_join ", "
               (List.map (fun kv => encode_str (fst kv) ++ ": " ++ dumps (snd kv)) kvs)
          ++ "}"
  end.

End json.

(** ** Data model *)

Inductive SIEMType : Type :=
| SPLUNK | QRADAR | ARCSIGHT | SENTINEL | ELASTIC | GENERIC.

Definition SIEMType_value (t : SIEMType) : string :=
  match t with
  | SPLUNK => "splunk"
  | QRADAR => "qradar"
  | ARCSIGHT => "arcsight"
  | SENTINEL => "sentinel"
  | ELASTIC => "elastic"
  | GENERIC => "generic"
  end.

#[global] Instance SIEMType_eq_dec : EqDecision SIEMType.
Proof. solve_decision. Defined.

Definition SIEMType_to_nat (t : SIEMType) : nat :=
  match t with
  | SPLUNK => 0 | QRADAR => 1 | ARCSIGHT => 2
  | SENTINEL => 3 | ELASTIC => 4 | GENERIC => 5
  end%nat.

Definition SIEMType_of_nat (n : nat) : SIEMType :=
  match n with
  | 0 => SPLUNK | 1 => QRADAR | 2 => ARCSIGHT
  | 3 => SENTINEL | 4 => ELASTIC | _ => GENERIC
  end%nat.

#[global] Instance SIEMType_countable : Countable SIEMType.
Proof.
  apply (inj_countable' SIEMType_to_nat SIEMType_of_nat).
  intros []; reflexivity.
Defined.

(** Configuration for a SIEM connection. *)
Record SIEMConfig : Type := mkSIEMConfig {
  siem_type : SIEMType;
  endpoint : string;
  api_key : string;
  username : option string;
  password : option string;
  verify_ssl : bool;
  timeout : Z;
  max_retries : Z
}.

(** [SIEMConfig(siem_type, endpoint, api_key)] with the declared defaults. *)
Definition SIEMConfig_defaults (siem_type : SIEMType) (endpoint api_key : string)
  : SIEMConfig :=
  mkSIEMConfig siem_type endpoint api_key None None true 30 3.

Definition opt_str (o : option string) : pyval :=
  match o with
  | Some s => PyStr s
  | None => PyNone
  end.

(** The [requests.Session] of a connector: [headers] holds the entries the
    constructors write. *)
Record Session : Type := mkSession {
  headers : gmap string string;
  verify : bool;
  auth : option (string * string)
}.

(** One call of [session.post] or [session.put]. *)
Record Request : Type := mkRequest {
  req_method : string;
  req_url : string;
  req_data : string;
  req_headers : list (string * string);
  req_timeout : Z
}.

Record Response : Type := mkResponse {
  status_code : Z;
  text : string
}.

(** What a push reads from outside: the clock in the three renderings the
    connectors use, and the transport, which answers a request or raises. *)
Record Env : Type := mkEnv {
  now_timestamp : Z;
  utcnow_isoformat : string;
  utcnow_strftime : string;
  send : Session -> Request -> result Response
}.

(** A connector object: its configuration, its session and its
    [push_intelligence] method. *)
Record Connector : Type := mkConnector {
  config : SIEMConfig;
  session : Session;
  push_intelligence : Env -> gmap string pyval -> result bool
}.

(** [d.get(key, default)]. *)
Definition dict_get (d : gmap string pyval) (key : string) (dflt : pyval) : pyval :=
  default dflt (d !! key).

Definition newline : string := String (chr 10) "".

(** ** Connectors *)

(** Base connector with the shared mappers. *)
Module SIEMConnector.

Definition __init__ (config : SIEMConfig) : Session :=
  let session := mkSession ∅ (verify_ssl config) None in
  if truthy (PyStr (api_key config)) then
    mkSession
      (<["Content-Type" := "application/json"]>
         (<["Authorization" := "Bearer " ++ api_key config]> (headers session)))
      (verify session) (auth session)
  else session.

(** Map Sui severity (1-10) to SIEM severity levels. *)
Definition _map_severity (sui_severity : Z) : string :=
  if sui_severity >=? 8 then "critical"
  else if sui_severity >=? 6 then "high"
  else if sui_severity >=? 4 then "medium"
  else "low".

(** Map confidence score to qualitative levels. *)
Definition _map_confidence (confidence_score : Z) : string :=
  if confidence_score >=? 80 then "high"
  else if confidence_score >=? 60 then "medium"
  else "low".

Definition push_intelligence (env : Env) (intelligence_data : gmap string pyval)
  : result bool :=
  Raise (NotImplementedError "Subclasses must implement push_intelligence").

Definition new (config : SIEMConfig) : Connector :=
  mkConnector config (__init__ config) push_intelligence.

(** Test SIEM connectivity: a GET of the health path, which carries no
    body; true on status 200, false on any other status or fault.  No class
    of the module overrides it. *)
Definition test_connection (config : SIEMConfig) (session : Session) (env : Env)
  : result bool :=
  try_except
    (response ← send env session
       (mkRequest "GET" (endpoint config ++ "/health") "" [] (timeout config));
     Return (status_code response =? 200))
    (fun e => Return false).

End SIEMConnector.

(** Splunk connector (HTTP Event Collector). *)
Module SplunkConnector.

Definition __init__ (config : SIEMConfig) : Session :=
  let session := SIEMConnector.__init__ config in
  mkSession (<["Authorization" := "Splunk " ++ api_key config]> (headers session))
            (verify session) (auth session).

Definition splunk_event (env : Env) (intelligence_data : gmap string pyval)
  : result pyval :=
  severity ← int_operand (dict_get intelligence_data "severity" (PyInt 1));
  confidence ← int_operand (dict_get intelligence_data "confidence_score" (PyInt 0));
  Return (PyDict
    [("time", PyInt (now_timestamp env));
     ("source", PyStr "cti_platform_sui");
     ("sourcetype", PyStr "threat_intelligence");
     ("index", PyStr "security");
     ("event", PyDict
        [("threat_id", dict_get intelligence_data "id" PyNone);
         ("timestamp", dict_get intelligence_data "submission_time" PyNone);
         ("severity", PyStr (SIEMConnector._map_severity severity));
         ("threat_type", dict_get intelligence_data "threat_type" PyNone);
         ("confidence", PyStr (SIEMConnector._map_confidence confidence));
         ("indicators", PyDict
            [("ioc_hash", dict_get intelligence_data "ioc_hash" PyNone);
             ("stix_pattern", dict_get intelligence_data "stix_pattern" PyNone);
             ("mitre_techniques",
              dict_get intelligence_data "mitre_techniques" (PyList []))]);
         ("submitter", dict_get intelligence_data "submitter" PyNone);
         ("verified", dict_get intelligence_data "is_verified" (PyBool false));
         ("validation_count", dict_get intelligence_data "validation_count" (PyInt 0));
         ("blockchain_source", PyStr "sui");
         ("platform", PyStr "cti_sharing_platform")])]).

Definition push_intelligence (config : SIEMConfig) (session : Session)
           (env : Env) (intelligence_data : gmap string pyval) : result bool :=
  try_except
    (splunk_event ← splunk_event env intelligence_data;
     response ← send env session
       (mkRequest "POST" (endpoint config ++ "/services/collector/event")
                  (json.dumps splunk_event) [] (timeout config));
     if status_code response =? 200 then Return true else Return false)
    (fun e => Return false).

Definition new (config : SIEMConfig) : Connector :=
  let session := __init__ config in
  mkConnector config session (push_intelligence config session).

End SplunkConnector.

(** IBM QRadar connector (custom events). *)
Module QRadarConnector.

Definition __init__ (config : SIEMConfig) : Session :=
  let session := SIEMConnector.__init__ config in
  mkSession (<["Version" := "12.0"]> (<["SEC" := api_key config]> (headers session)))
            (verify session) (auth session).

(** Map to QRadar severity scale (1-10). *)
Definition _qradar_severity_mapping (sui_severity : Z) : Z :=
  Z.min 10 (Z.max 1 sui_severity).

Definition qradar_event (intelligence_data : gmap string pyval) : result pyval :=
  severity ← int_operand (dict_get intelligence_data "severity" (PyInt 1));
  confidence ← int_operand (dict_get intelligence_data "confidence_score" (PyInt 0));
  techniques ← py_join "," (dict_get intelligence_data "mitre_techniques" (PyList []));
  Return (PyDict
    [("events", PyList [PyDict
        [("qid", PyInt 99999);
         ("severity", PyInt (_qradar_severity_mapping severity));
         ("credibility", PyInt (Z.min 10 (confidence / 10)));
         ("relevance",
          PyInt (if truthy (dict_get intelligence_data "is_verified" PyNone)
                 then 10 else 5));
         ("properties", PyDict
            [("threat_type", dict_get intelligence_data "threat_type" PyNone);
             ("ioc_hash", dict_get intelligence_data "ioc_hash" PyNone);
             ("stix_pattern", dict_get intelligence_data "stix_pattern" PyNone);
             ("mitre_techniques", PyStr techniques);
             ("submitter", dict_get intelligence_data "submitter" PyNone);
             ("blockchain_tx",
              dict_get intelligence_data "transaction_hash" (PyStr ""));
             ("sui_platform", PyStr "true")])]])]).

Definition push_intelligence (config : SIEMConfig) (session : Session)
           (env : Env) (intelligence_data : gmap string pyval) : result bool :=
  try_except
    (qradar_event ← qradar_event intelligence_data;
     response ← send env session
       (mkRequest "POST" (endpoint config ++ "/api/siem/events")
                  (json.dumps qradar_event) [] (timeout config));
     if (status_code response =? 200) || (status_code response =? 201)
     then Return true else Return false)
    (fun e => Return false).

Definition new (config : SIEMConfig) : Connector :=
  let session := __init__ config in
  mkConnector config session (push_intelligence config session).

End QRadarConnector.

(** Microsoft Sentinel connector (Data Collector API). *)
Module SentinelConnector.

Definition __init__ (config : SIEMConfig) : Session :=
  SIEMConnector.__init__ config.

(** Sentinel uses the username field for the workspace ID and the API key
    as the shared key. *)
Definition workspace_id (config : SIEMConfig) : pyval := opt_str (username config).
Definition shared_key (config : SIEMConfig) : string := api_key config.

(** Build authentication signature for Sentinel. *)
Definition _build_signature (message secret : string) : result string :=
  let bytes_to_sign := str_encode message in
  decoded_key ← base64.b64decode secret;
  let encoded_hash :=
    base64.b64encode (hmac.new_sha256_digest decoded_key bytes_to_sign) in
  Return (ascii_decode encoded_hash).

Definition log_data (env : Env) (intelligence_data : gmap string pyval)
  : result pyval :=
  severity ← int_operand (dict_get intelligence_data "severity" (PyInt 1));
  techniques ← py_join "," (dict_get intelligence_data "mitre_techniques" (PyList []));
  Return (PyList [PyDict
    [("TimeGenerated", PyStr (utcnow_isoformat env));
     ("ThreatType", dict_get intelligence_data "threat_type" PyNone);
     ("Severity", PyStr (SIEMConnector._map_severity severity));
     ("ConfidenceScore", dict_get intelligence_data "confidence_score" (PyInt 0));
     ("IOCHash", dict_get intelligence_data "ioc_hash" PyNone);
     ("STIXPattern", dict_get intelligence_data "stix_pattern" PyNone);
     ("MITRETechniques", PyStr techniques);
     ("Submitter", dict_get intelligence_data "submitter" PyNone);
     ("IsVerified", dict_get intelligence_data "is_verified" (PyBool false));
     ("ValidationCount", dict_get intelligence_data "validation_count" (PyInt 0));
     ("BlockchainPlatform", PyStr "Sui");
     ("CTIPlatform", PyStr "SuiCTISharing")]]).

(** The string the signature is computed over. *)
Definition string_to_hash (body date : string) : string :=
  "POST" ++ newline ++ str_of_int (Z.of_nat (String.length body)) ++ newline
    ++ "application/json" ++ newline ++ "x-ms-date:" ++ date ++ newline
    ++ "/api/logs".

Definition push_intelligence (config : SIEMConfig) (session : Session)
           (env : Env) (intelligence_data : gmap string pyval) : result bool :=
  try_except
    (log_data ← log_data env intelligence_data;
     let body := json.dumps log_data in
     let date := utcnow_strftime env in
     signature ← _build_signature (string_to_hash body date) (shared_key config);
     let headers :=
       [("Content-Type", "application/json");
        ("Authorization",
         "SharedKey " ++ py_str (workspace_id config) ++ ":" ++ signature);
        ("Log-Type", "CTIThreatIntelligence");
        ("x-ms-date", date)] in
     response ← send env session
       (mkRequest "POST"
          ("https://" ++ py_str (workspace_id config)
             ++ ".ods.opinsights.azure.com/api/logs?api-version=2016-04-01")
          body headers (timeout config));
     if status_code response =? 200 then Return true else Return false)
    (fun e => Return false).

Definition new (config : SIEMConfig) : Connector :=
  let session := __init__ config in
  mkConnector config session (push_intelligence config session).

End SentinelConnector.

(** Elastic connector (document upsert). *)
Module ElasticConnector.

Definition __init__ (config : SIEMConfig) : Session :=
  let session := SIEMConnector.__init__ config in
  match username config, password config with
  | Some u, Some p =>
      if truthy (PyStr u) && truthy (PyStr p)
      then mkSession (headers session) (verify session) (Some (u, p))
      else session
  | _, _ => session
  end.

Definition doc (env : Env) (intelligence_data : gmap string pyval) : result pyval :=
  confidence ← int_operand (dict_get intelligence_data "confidence_score" (PyInt 0));
  severity ← int_operand (dict_get intelligence_data "severity" (PyInt 1));
  Return (PyDict
    [("@timestamp", PyStr (utcnow_isoformat env));
     ("event", PyDict
        [("kind", PyStr "enrichment");
         ("category", PyList [PyStr "threat"]);
         ("type", PyList [PyStr "indicator"]);
         ("dataset", PyStr "cti.sui_platform")]);
     ("threat", PyDict
        [("indicator", PyDict
            [("type", dict_get intelligence_data "threat_type" PyNone);
             ("confidence", PyStr (SIEMConnector._map_confidence confidence));
             ("marking", PyDict
                [("verified",
                  dict_get intelligence_data "is_verified" (PyBool false))])])]);
     ("cti_platform", PyDict
        [("blockchain", PyStr "sui");
         ("submitter", dict_get intelligence_data "submitter" PyNone);
         ("validation_count",
          dict_get intelligence_data "validation_count" (PyInt 0));
         ("ioc_hash", dict_get intelligence_data "ioc_hash" PyNone);
         ("stix_pattern", dict_get intelligence_data "stix_pattern" PyNone);
         ("mitre_techniques",
          dict_get intelligence_data "mitre_techniques" (PyList []))]);
     ("log", PyDict
        [("level", PyStr (SIEMConnector._map_severity severity))])]).

(** Document ID: SHA-256 of the IOC hash followed by the submitter. *)
Definition doc_id (intelligence_data : gmap string pyval) : string :=
  hashlib.sha256_hexdigest
    (str_encode (py_str (dict_get intelligence_data "ioc_hash" (PyStr ""))
                   ++ py_str (dict_get intelligence_data "submitter" (PyStr "")))).

(** The request a push sends once its document is built. *)
Definition put_request (config : SIEMConfig) (doc : pyval)
           (intelligence_data : gmap string pyval) : Request :=
  mkRequest "PUT"
    (endpoint config ++ "/cti-intelligence/_doc/" ++ doc_id intelligence_data)
    (json.dumps doc) [] (timeout config).

Definition push_intelligence (config : SIEMConfig) (session : Session)
           (env : Env) (intelligence_data : gmap string pyval) : result bool :=
  try_except
    (doc ← doc env intelligence_data;
     response ← send env session (put_request config doc intelligence_data);
     if (status_code response =? 200) || (status_code response =? 201)
     then Return true else Return false)
    (fun e => Return false).

Definition new (config : SIEMConfig) : Connector :=
  let session := __init__ config in
  mkConnector config session (push_intelligence config session).

End ElasticConnector.

(** ** Orchestrator *)

(** Truth value of a list in a condition: false when empty. *)
Definition list_truthy {A} (l : list A) : bool :=
  match l with
  | [] => false
  | _ :: _ => true
  end.

(** [push_results[i]]. *)
Definition list_index {A} (l : list A) (i : nat) : result A :=
  match l !! i with
  | Some a => Return a
  | None => Raise IndexError
  end.

(** [enumerate(l)]. *)
Definition enumerate {A} (l : list A) : list (nat * A) :=
  combine (seq 0 (length l)) l.

(** A [for] loop over [l] whose body may raise; [acc] is the state the body
    updates. *)
Fixpoint for_each {A S} (body : S -> A -> result S) (l : list A) (acc : S)
  : result S :=
  match l with
  | [] => Return acc
  | x :: rest => acc' ← body acc x; for_each body rest acc'
  end.

(** [asyncio.gather] over the tasks with [return_exceptions=True]: the
    outcome of every task in the order of the tasks, a raised exception as
    a value. *)
Definition gather_return_exceptions {A} (tasks : list (result A)) : list (A + exn) :=
  List.map (fun task => match task with
                        | Return a => inl a
                        | Raise e => inr e
                        end) tasks.

(** Main CTI-SIEM integration orchestrator. *)
Module CTISIEMIntegration.

Record t : Type := mk {
  connectors : gmap string Connector;
  config : gmap string pyval
}.

Definition __init__ : t := mk ∅ ∅.

(** Add a SIEM connector. *)
Definition add_siem_connector (self : t) (name : string) (connector : Connector) : t :=
  mk (<[name := connector]> (connectors self)) (config self).

(** Remove a SIEM connector. *)
Definition remove_siem_connector (self : t) (name : string) : t :=
  if decide (is_Some (connectors self !! name))
  then mk (delete name (connectors self)) (config self)
  else self.

(** Safely push intelligence with error handling. *)
Definition _safe_push_intelligence (name : string) (connector : Connector)
           (env : Env) (intelligence_data : gmap string pyval) : result bool :=
  try_except (push_intelligence connector env intelligence_data)
             (fun e => Return false).

(** The connectors a broadcast addresses. *)
Definition target_connectors (self : t) (target_siems : option (list string))
  : gmap string Connector :=
  match target_siems with
  | Some names =>
      if list_truthy names
      then filter (fun kv : string * Connector => kv.1 ∈ names) (connectors self)
      else connectors self
  | None => connectors self
  end.

(** Broadcast CTI to all or specified SIEM systems. *)
Definition broadcast_intelligence (self : t) (env : Env)
           (intelligence_data : gmap string pyval)
           (target_siems : option (list string)) : result (gmap string bool) :=
  let target_connectors := target_connectors self target_siems in
  let tasks :=
    List.map (fun kv : string * Connector =>
                _safe_push_intelligence kv.1 kv.2 env intelligence_data)
             (map_to_list target_connectors) in
  let push_results := gather_return_exceptions tasks in
  for_each
    (fun (results : gmap string bool) (ikv : nat * (string * Connector)) =>
       result ← list_index push_results ikv.1;
       match result with
       | inr e => Return (<[ikv.2.1 := false]> results)
       | inl b => Return (<[ikv.2.1 := b]> results)
       end)
    (enumerate (map_to_list target_connectors)) ∅.

(** [sum(1 for success in results.values() if success)]. *)
Definition success_count (results : gmap string bool) : Z :=
  fold_right Z.add 0
    (List.map (fun _ => 1) (List.filter (fun success : bool => success)
                                        (map_to_list results).*2)).

(** [len(results)]. *)
Definition total_count (results : gmap string bool) : Z :=
  Z.of_nat (size results).

(** Test connectivity to all configured SIEMs. *)
Definition test_all_connections (self : t) (env : Env) : result (gmap string bool) :=
  for_each
    (fun (results : gmap string bool) (kv : string * Connector) =>
       let 'mkConnector connector_config connector_session _ := kv.2 in
       ok ← try_except
              (SIEMConnector.test_connection connector_config connector_session env)
              (fun e => Return false);
       Return (<[kv.1 := ok]> results))
    (map_to_list (connectors self)) ∅.

(** Get status of all connectors. *)
Definition get_connector_status (self : t) : gmap string pyval :=
  fold_left
    (fun (status : gmap string pyval) (kv : string * Connector) =>
       let 'mkConnector connector_config _ _ := kv.2 in
       <[kv.1 := PyDict
                   [("siem_type", PyStr (SIEMType_value (siem_type connector_config)));
                    ("endpoint", PyStr (endpoint connector_config));
                    ("verify_ssl", PyBool (verify_ssl connector_config));
                    ("timeout", PyInt (timeout connector_config))]]> status)
    (map_to_list (connectors self)) ∅.

End CTISIEMIntegration.

(** The factory's lookup table. *)
Definition connector_map : gmap SIEMType (SIEMConfig -> Connector) :=
  <[GENERIC := SIEMConnector.new]>
    (<[ELASTIC := ElasticConnector.new]>
       (<[SENTINEL := SentinelConnector.new]>
          (<[QRADAR := QRadarConnector.new]>
             (<[SPLUNK := SplunkConnector.new]> ∅)))).

(** Factory function to create appropriate SIEM connector. *)
Definition create_siem_connector (siem_type : SIEMType) (config : SIEMConfig)
  : Connector :=
  let connector_class := default SIEMConnector.new (connector_map !! siem_type) in
  connector_class config.

(** ** The orchestrator over pushes that may raise anything *)

(** What a push can raise outside the [Exception] hierarchy. *)
Inductive base_exception : Type :=
| CancelledError
| KeyboardInterrupt
| SystemExit
| OtherBaseException (name : string).

(** A task that raises [KeyboardInterrupt] or [SystemExit] stops the event
    loop; any other raised object is kept by the task. *)
Definition stops_loop (b : base_exception) : bool :=
  match b with
  | KeyboardInterrupt | SystemExit => true
  | CancelledError | OtherBaseException _ => false
  end.

(** Outcome of a coroutine: it completes, by returning or by raising an
    [Exception], or an object outside that hierarchy escapes from it. *)
Inductive outcome (A : Type) : Type :=
| Completes (r : result A)
| Escapes (b : base_exception).
Arguments Completes {A} r.
Arguments Escapes {A} b.

(** A connector object of any class, known by what its push does. *)
Record RawConnector : Type := mkRawConnector {
  raw_push : Env -> gmap string pyval -> outcome bool
}.

(** A connector of the module's classes seen as such an object. *)
Definition raw_of_connector (connector : Connector) : RawConnector :=
  mkRawConnector (fun env intelligence_data =>
                    Completes (push_intelligence connector env intelligence_data)).

(** [_safe_push_intelligence] on such a connector: [except Exception]
    turns an exception into false and lets anything else through. *)
Definition safe_push_outcome (connector : RawConnector) (env : Env)
           (intelligence_data : gmap string pyval) : outcome bool :=
  match raw_push connector env intelligence_data with
  | Completes r => Completes (try_except r (fun e => Return false))
  | Escapes b => Escapes b
  end.

(** What [asyncio.gather] with [return_exceptions=True] yields for a task:
    its value, or the object it raised. *)
Inductive gathered : Type :=
| GValue (b : bool)
| GException (e : exn)
| GBase (b : base_exception).

Definition gathered_of (task : outcome bool) : gathered :=
  match task with
  | Completes (Return b) => GValue b
  | Completes (Raise e) => GException e
  | Escapes b => GBase b
  end.

Definition loop_stopper (task : outcome bool) : option base_exception :=
  match task with
  | Escapes b => if stops_loop b then Some b else None
  | Completes _ => None
  end.

(** What [results[name]] holds: a flag, or the raised object that
    [isinstance(result, Exception)] did not recognise. *)
Inductive entry : Type :=
| Flag (b : bool)
| ExceptionObject (b : base_exception).


Definition entry_of_gathered (result : gathered) : entry :=
  match result with
  | GException _ => Flag false
  | GValue b => Flag b
  | GBase b => ExceptionObject b
  end.

(** The connectors a broadcast addresses, for any kind of registry. *)
Definition targeted {V} (connectors : gmap string V)
           (target_siems : option (list string)) : gmap string V :=
  match target_siems with
  | Some names =>
      if list_truthy names
      then filter (fun kv : string * V => kv.1 ∈ names) connectors
      else connectors
  | None => connectors
  end.

(** [broadcast_intelligence] over such connectors.  The first task that
    stops the event loop ends the call with what it raised; otherwise every
    task's value or raised object is gathered and stored under its name. *)
Definition broadcast_intelligence_any (connectors : gmap string RawConnector)
           (env : Env) (intelligence_data : gmap string pyval)
           (target_siems : option (list string)) : outcome (gmap string entry) :=
  let target_connectors := targeted connectors target_siems in
  let tasks :=
    List.map (fun kv : string * RawConnector =>
                safe_push_outcome kv.2 env intelligence_data)
             (map_to_list target_connectors) in
  match head (omap loop_stopper tasks) with
  | Some b => Escapes b
  | None =>
      let push_results := List.map gathered_of tasks in
      Completes
        (for_each
           (fun (results : gmap string entry) (ikv : nat * (string * RawConnector)) =>
              result ← list_index push_results ikv.1;
              Return (<[ikv.2.1 := entry_of_gathered result]> results))
           (enumerate (map_to_list target_connectors)) ∅)
  end.


(** The canonical string as the specification words it: the method, the
    body length, the content type, the value of the x-ms-date header and
    the resource path, separated by newlines. *)
Definition string_to_hash_as_specified (body date : string) : string :=
  str_join newline
    ["POST"; str_of_int (Z.of_nat (String.length body)); "application/json";
     date; "/api/logs"]%string.

(** [d[key]] on a dict value. *)
Definition dict_field (v : pyval) (key : string) : option pyval :=
  match v with
  | PyDict kvs =>
      match List.find (fun kv : string * pyval => String.eqb kv.1 key) kvs with
      | Some kv => Some kv.2
      | None => None
      end
  | _ => None
  end.

(** ** Notions used by the statements *)

(** Position of a qualitative level in the order low < medium < high <
    critical. *)
Definition level_rank (level : string) : option nat :=
  if String.eqb level "low" then Some 0%nat
  else if String.eqb level "medium" then Some 1%nat
  else if String.eqb level "high" then Some 2%nat
  else if String.eqb level "critical" then Some 3%nat
  else None.

(** What a connector's push contributes to a broadcast: the returned flag,
    and false when the push raises. *)
Definition push_outcome (connector : Connector) (env : Env)
           (intelligence_data : gmap string pyval) : bool :=
  match push_intelligence connector env intelligence_data with
  | Return b => b
  | Raise _ => false
  end.

(** The fields the vendor payloads read with a default, and the default. *)
Definition payload_defaults : list (string * pyval) :=
  [("severity", PyInt 1);
   ("confidence_score", PyInt 0);
   ("mitre_techniques", PyList []);
   ("is_verified", PyBool false);
   ("validation_count", PyInt 0)].

(** The payload each vendor connector builds from a record. *)
Definition vendor_payloads (env : Env) (intelligence_data : gmap string pyval)
  : list (result pyval) :=
  [SplunkConnector.splunk_event env intelligence_data;
   QRadarConnector.qradar_event intelligence_data;
   SentinelConnector.log_data env intelligence_data;
   ElasticConnector.doc env intelligence_data].

(** The vendor connectors built from one configuration. *)
Definition vendor_connectors (config : SIEMConfig) : list Connector :=
  [SplunkConnector.new config; QRadarConnector.new config;
   SentinelConnector.new config; ElasticConnector.new config].

(** The connectors of every class built from one configuration. *)
Definition all_connectors (config : SIEMConfig) : list Connector :=
  SIEMConnector.new config :: vendor_connectors config.

(** An environment whose transport refuses every request. *)
Definition offline_env : Env :=
  mkEnv 0 "1970-01-01T00:00:00+00:00" "Thu, 01 Jan 1970 00:00:00 GMT"
        (fun _ _ => Raise (RequestException "connection refused")).

(** An environment whose transport accepts what is sent to the host
    [https://a] and answers 500 to everything else. *)
Definition scenario_env : Env :=
  mkEnv 0 "1970-01-01T00:00:00+00:00" "Thu, 01 Jan 1970 00:00:00 GMT"
        (fun _ request =>
           if String.prefix "https://a/" (req_url request)
           then Return (mkResponse 200 "")
           else Return (mkResponse 500 "Internal Server Error")).

Definition sample_config : SIEMConfig :=
  SIEMConfig_defaults GENERIC "https://siem.example" "token".

(** The record of the module's usage example, without its time stamp. *)
Definition sample_intelligence : gmap string pyval :=
  <["validation_count" := PyInt 3]>
  (<["submitter" := PyStr "0x123...abc"]>
  (<["mitre_techniques" := PyList [PyStr "T1055"; PyStr "T1003"]]>
  (<["stix_pattern" := PyStr ("[file:hashes.MD5 = " ++ String dquote "abc123def456"
                                ++ String dquote "]")]>
  (<["ioc_hash" := PyStr "abc123def456"]>
  (<["is_verified" := PyBool true]>
  (<["confidence_score" := PyInt 85]>
  (<["severity" := PyInt 8]>
  (<["threat_type" := PyStr "malware"]>
  (<["id" := PyStr "cti_001"]> ∅))))))))).

(** ** The library models on known answers *)

Example sha256_constants :
  hd 0 hashlib.K = 0x428a2f98 ∧ List.last hashlib.K 0 = 0xc67178f2
  ∧ length hashlib.K = 64%nat
  ∧ hd 0 hashlib.H0 = 0x6a09e667 ∧ List.last hashlib.H0 0 = 0x5be0cd19
  ∧ length hashlib.H0 = 8%nat.
Proof. vm_compute. repeat split. Qed.

Example sha256_abc :
  hashlib.sha256_hexdigest (str_encode "abc")
  = "ba7816bf8f01cfea414140de5dae2223b00361a396177a9cb410ff61f20015ad".
Proof. vm_compute. reflexivity. Qed.

Example sha256_empty :
  hashlib.sha256_hexdigest []
  = "e3b0c44298fc1c149afbf4c8996fb92427ae41e4649b934ca495991b7852b855".
Proof. vm_compute. reflexivity. Qed.

Example hmac_sha256_rfc4231_case2 :
  hashlib.hex (hmac.new_sha256_digest (str_encode "Jefe")
                 (str_encode "what do ya want for nothing?"))
  = "5bdcc146bf60754e6a042426089575c75a003f089d2739839dec58b964ec3843".
Proof. vm_compute. reflexivity. Qed.

Example b64_roundtrip_sample :
  base64.b64decode (ascii_decode (base64.b64encode (str_encode "secret-key")))
  = Return (str_encode "secret-key").
Proof. vm_compute. reflexivity. Qed.

Example b64decode_bad_padding :
  base64.b64decode "your-shared-key" = Raise BinasciiError.
Proof. vm_compute. reflexivity. Qed.

Example json_dumps_sample :
  json.dumps (PyDict [("a", PyList [PyInt 1; PyBool true; PyNone]); ("b", PyStr "x")])
  = String.concat (String dquote "")
      ["{"; "a"; ": [1, true, null], "; "b"; ": "; "x"; "}"].
Proof. vm_compute. reflexivity. Qed.

(** ** The orchestrator's loop *)

Local Open Scope list_scope.

Section broadcast.
Context (env : Env) (intelligence_data : gmap string pyval).

Let task (kv : string * Connector) : result bool :=
  CTISIEMIntegration._safe_push_intelligence kv.1 kv.2 env intelligence_data.

Let record_result (push_results : list (bool + exn)) (results : gmap string bool)
    (ikv : nat * (string * Connector)) : result (gmap string bool) :=
  result ← list_index push_results ikv.1;
  match result with
  | inr e => Return (<[ikv.2.1 := false]> results)
  | inl b => Return (<[ikv.2.1 := b]> results)
  end.

Lemma gather_safe_push (kv : string * Connector) :
  gather_return_exceptions [task kv] = [inl (push_outcome kv.2 env intelligence_data)].
Proof.
  unfold task, CTISIEMIntegration._safe_push_intelligence, push_outcome, try_except.
  simpl. destruct (push_intelligence kv.2 env intelligence_data); reflexivity.
Qed.

Lemma gather_app {A} (l1 l2 : list (result A)) :
  gather_return_exceptions (l1 ++ l2)
  = gather_return_exceptions l1 ++ gather_return_exceptions l2.
Proof. unfold gather_return_exceptions. apply List.map_app. Qed.

Lemma gather_length {A} (l : list (result A)) :
  length (gather_return_exceptions l) = length l.
Proof. unfold gather_return_exceptions. apply List.length_map. Qed.

(** The loop reads, at position [i], the outcome of the [i]-th task: it
    never indexes out of range and stores one flag per item. *)
Lemma record_results_fold (done todo : list (string * Connector))
      (results : gmap string bool) :
  for_each
    (record_result (gather_return_exceptions (List.map task (done ++ todo))))
    (combine (seq (length done) (length todo)) todo) results
  = Return (fold_left
              (fun acc kv => <[kv.1 := push_outcome kv.2 env intelligence_data]> acc)
              todo results).
Proof.
  revert done results. induction todo as [|kv todo IH]; intros done results.
  - reflexivity.
  - cbn [length seq combine for_each fold_left].
    assert (Hstep : record_result
              (gather_return_exceptions (List.map task (done ++ kv :: todo)))
              results (length done, kv)
            = Return (<[kv.1 := push_outcome kv.2 env intelligence_data]> results)).
    { unfold record_result, list_index. cbn [fst snd].
      rewrite List.map_app, gather_app. cbn [List.map].
      change (task kv :: List.map task todo)
        with ([task kv] ++ List.map task todo).
      rewrite gather_app, gather_safe_push.
      rewrite lookup_app_r by (rewrite gather_length, List.length_map; lia).
      rewrite gather_length, List.length_map, Nat.sub_diag. reflexivity. }
    rewrite Hstep. cbn [mbind result_bind].
    specialize (IH (done ++ [kv]) (<[kv.1 := push_outcome kv.2 env intelligence_data]> results)).
    rewrite <- app_assoc in IH. cbn [app] in IH.
    rewrite length_app in IH. cbn [length] in IH.
    replace (length done + 1)%nat with (S (length done)) in IH by lia.
    exact IH.
Qed.

(** Storing one flag per item of a list without repeated names yields the
    map of the flags. *)
Lemma fold_insert_lookup (items : list (string * Connector))
      (results : gmap string bool) (name : string) :
  NoDup items.*1 →
  fold_left (fun acc kv => <[kv.1 := push_outcome kv.2 env intelligence_data]> acc)
            items results !! name
  = match (list_to_map items : gmap string Connector) !! name with
    | Some connector => Some (push_outcome connector env intelligence_data)
    | None => results !! name
    end.
Proof.
  revert results. induction items as [|[k c] items IH]; intros results Hnd.
  - reflexivity.
  - rewrite fmap_cons in Hnd. apply NoDup_cons in Hnd as [Hk Hnd].
    cbn [fst] in Hk. cbn [fold_left fst snd].
    rewrite IH by exact Hnd. cbn [list_to_map foldr fst snd uncurry].
    destruct (decide (k = name)) as [->|Hne].
    + rewrite (not_elem_of_list_to_map_1 items name Hk).
      rewrite !lookup_insert_eq. reflexivity.
    + rewrite !lookup_insert_ne by exact Hne. reflexivity.
Qed.

(** A broadcast returns, for every targeted connector, the outcome of its
    own push. *)
Lemma broadcast_intelligence_eq (self : CTISIEMIntegration.t)
      (target_siems : option (list string)) :
  CTISIEMIntegration.broadcast_intelligence self env intelligence_data target_siems
  = Return ((fun connector => push_outcome connector env intelligence_data)
              <$> CTISIEMIntegration.target_connectors self target_siems).
Proof.
  unfold CTISIEMIntegration.broadcast_intelligence, enumerate.
  set (targets := CTISIEMIntegration.target_connectors self target_siems).
  pose proof (record_results_fold [] (map_to_list targets) ∅) as Hloop.
  cbn [app length] in Hloop. unfold record_result, task in Hloop.
  rewrite Hloop. f_equal. apply map_eq. intros name.
  rewrite fold_insert_lookup by apply NoDup_fst_map_to_list.
  rewrite list_to_map_to_list, lookup_fmap, lookup_empty.
  destruct (targets !! name); reflexivity.
Qed.

End broadcast.

(** ** Target resolution *)

Lemma target_connectors_lookup_named (self : CTISIEMIntegration.t)
      (n : string) (ns : list string) (name : string) (connector : Connector) :
  CTISIEMIntegration.target_connectors self (Some (n :: ns)) !! name = Some connector
  ↔ CTISIEMIntegration.connectors self !! name = Some connector ∧ name ∈ n :: ns.
Proof.
  unfold CTISIEMIntegration.target_connectors. cbn [list_truthy].
  rewrite map_lookup_filter_Some. reflexivity.
Qed.

Lemma target_connectors_subseteq (self : CTISIEMIntegration.t)
      (target_siems : option (list string)) :
  CTISIEMIntegration.target_connectors self target_siems
  ⊆ CTISIEMIntegration.connectors self.
Proof.
  unfold CTISIEMIntegration.target_connectors.
  destruct target_siems as [[|n ns]|]; cbn [list_truthy];
    [reflexivity | apply map_filter_subseteq | reflexivity].
Qed.

(** Replacing the connector registered under one name leaves the targeted
    connector of every other name as it was. *)
Lemma target_connectors_add_other (self : CTISIEMIntegration.t)
      (target_siems : option (list string)) (name other : string)
      (connector : Connector) :
  other ≠ name →
  CTISIEMIntegration.target_connectors
    (CTISIEMIntegration.add_siem_connector self name connector) target_siems !! other
  = CTISIEMIntegration.target_connectors self target_siems !! other.
Proof.
  intros Hne.
  unfold CTISIEMIntegration.target_connectors, CTISIEMIntegration.add_siem_connector.
  cbn [CTISIEMIntegration.connectors].
  destruct target_siems as [[|n ns]|]; cbn [list_truthy].
  - apply lookup_insert_ne. congruence.
  - apply option_eq. intros c. rewrite !map_lookup_filter_Some.
    rewrite lookup_insert_ne by congruence. reflexivity.
  - apply lookup_insert_ne. congruence.
Qed.

Lemma count_ones (l : list bool) :
  fold_right Z.add 0 (List.map (fun _ => 1) l) = Z.of_nat (length l).
Proof.
  induction l as [|b l IH]; [reflexivity|].
  cbn [List.map fold_right length]. rewrite IH. lia.
Qed.

Lemma success_count_le_total (results : gmap string bool) :
  0 <= CTISIEMIntegration.success_count results
    <= CTISIEMIntegration.total_count results.
Proof.
  unfold CTISIEMIntegration.success_count, CTISIEMIntegration.total_count.
  rewrite count_ones. split; [lia|].
  apply inj_le.
  etransitivity; [apply List.filter_length_le|].
  rewrite length_fmap, length_map_to_list. reflexivity.
Qed.

(** ** The claims *)

(** *** The loop over pushes that may raise anything *)

(** A loop that reads the [i]-th of the values computed from the items
    stores one value per item. *)
Lemma indexed_loop_fold {A R St} (g : A → R) (step : St → A → R → St)
      (done todo : list A) (acc : St) :
  for_each
    (fun (s : St) (ia : nat * A) =>
       r ← list_index (List.map g (done ++ todo)) ia.1; Return (step s ia.2 r))
    (combine (seq (length done) (length todo)) todo) acc
  = Return (fold_left (fun s a => step s a (g a)) todo acc).
Proof.
  revert done acc. induction todo as [|a todo IH]; intros done acc; [reflexivity|].
  cbn [length seq combine for_each fst snd].
  assert (Hidx : list_index (List.map g (done ++ a :: todo)) (length done)
                 = Return (g a)).
  { unfold list_index. rewrite List.map_app.
    rewrite lookup_app_r by (rewrite List.length_map; lia).
    rewrite List.length_map, Nat.sub_diag. reflexivity. }
  rewrite Hidx. cbn [mbind result_bind].
  specialize (IH (done ++ [a]) (step acc a (g a))).
  rewrite <- app_assoc in IH. cbn [app] in IH.
  rewrite length_app in IH. cbn [length] in IH.
  replace (length done + 1)%nat with (S (length done)) in IH by lia.
  exact IH.
Qed.

Lemma fold_insert_fmap_any {V B} (f : V → B) (m : gmap string V) :
  fold_left (fun (acc : gmap string B) (kv : string * V) =>
               <[kv.1 := f kv.2]> acc) (map_to_list m) ∅
  = f <$> m.
Proof.
  assert (Hgen : ∀ (items : list (string * V)) (acc : gmap string B) name,
             NoDup items.*1 →
             fold_left (fun (acc : gmap string B) (kv : string * V) =>
                          <[kv.1 := f kv.2]> acc) items acc !! name
             = match (list_to_map items : gmap string V) !! name with
               | Some c => Some (f c)
               | None => acc !! name
               end).
  { induction items as [|[k c] items IH]; intros acc name Hnd; [reflexivity|].
    rewrite fmap_cons in Hnd. apply NoDup_cons in Hnd as [Hk Hnd].
    cbn [fst] in Hk. cbn [fold_left fst snd].
    rewrite IH by exact Hnd. cbn [list_to_map foldr fst snd uncurry].
    destruct (decide (k = name)) as [->|Hne].
    - rewrite (not_elem_of_list_to_map_1 items name Hk).
      rewrite !lookup_insert_eq. reflexivity.
    - rewrite !lookup_insert_ne by exact Hne. reflexivity. }
  apply map_eq. intros name.
  rewrite Hgen by apply NoDup_fst_map_to_list.
  rewrite list_to_map_to_list, lookup_fmap, lookup_empty.
  destruct (m !! name); reflexivity.
Qed.

Lemma omap_all_none {A B} (f : A → option B) (l : list A) :
  (∀ x, x ∈ l → f x = None) → omap f l = [].
Proof.
  induction l as [|x l IH]; intros Hall; [reflexivity|].
  cbn [omap list_omap]. rewrite (Hall x) by apply list_elem_of_here.
  apply IH. intros y Hy. apply Hall. apply list_elem_of_further. exact Hy.
Qed.

(** When no targeted push stops the event loop, the call returns the map
    of what each targeted push left. *)
Lemma broadcast_intelligence_any_eq (connectors : gmap string RawConnector)
      (env : Env) (intelligence_data : gmap string pyval)
      (target_siems : option (list string)) :
  (∀ name connector,
      targeted connectors target_siems !! name = Some connector →
      loop_stopper (safe_push_outcome connector env intelligence_data) = None) →
  broadcast_intelligence_any connectors env intelligence_data target_siems
  = Completes
      (Return ((fun connector =>
                  entry_of_gathered
                    (gathered_of (safe_push_outcome connector env intelligence_data)))
                 <$> targeted connectors target_siems)).
Proof.
  intros Hquiet. unfold broadcast_intelligence_any, enumerate.
  set (targets := targeted connectors target_siems) in *.
  rewrite omap_all_none.
  2:{ intros task Htask. apply list_elem_of_In, List.in_map_iff in Htask
        as ([name connector] & <- & Hin).
      apply list_elem_of_In, elem_of_map_to_list in Hin.
      apply (Hquiet name connector Hin). }
  cbn [head]. do 2 f_equal. rewrite List.map_map.
  pose proof (indexed_loop_fold
                (fun kv : string * RawConnector =>
                   gathered_of (safe_push_outcome kv.2 env intelligence_data))
                (fun (results : gmap string entry) (kv : string * RawConnector) r =>
                   <[kv.1 := entry_of_gathered r]> results)
                [] (map_to_list targets) ∅) as Hloop.
  cbn [app length] in Hloop. rewrite Hloop. f_equal.
  apply (fold_insert_fmap_any
           (fun connector =>
              entry_of_gathered
                (gathered_of (safe_push_outcome connector env intelligence_data)))).
Qed.


(** On connectors of the module's classes, whose pushes raise nothing
    outside the [Exception] hierarchy, the two models of the broadcast
    agree. *)
Lemma broadcast_intelligence_any_agrees (self : CTISIEMIntegration.t)
      (env : Env) (intelligence_data : gmap string pyval)
      (target_siems : option (list string)) :
  broadcast_intelligence_any
    (raw_of_connector <$> CTISIEMIntegration.connectors self)
    env intelligence_data target_siems
  = Completes
      (match CTISIEMIntegration.broadcast_intelligence self env intelligence_data
                                                        target_siems with
       | Return results => Return (Flag <$> results)
       | Raise e => Raise e
       end).
Proof.
  assert (Htargets :
    targeted (raw_of_connector <$> CTISIEMIntegration.connectors self) target_siems
    = raw_of_connector <$> CTISIEMIntegration.target_connectors self target_siems).
  { unfold targeted, CTISIEMIntegration.target_connectors.
    destruct target_siems as [[|n ns]|]; cbn [list_truthy]; try reflexivity.
    apply map_eq. intros k. apply option_eq. intros c.
    rewrite map_lookup_filter_Some, !lookup_fmap.
    destruct (CTISIEMIntegration.connectors self !! k) as [c0|] eqn:Hk;
      cbn [fmap option_fmap option_map].
    - destruct (decide (k ∈ n :: ns)) as [Hin|Hout].
      + rewrite (proj2 (map_lookup_filter_Some _ _ k c0) (conj Hk Hin)).
        cbn [fmap option_fmap option_map]. tauto.
      + replace (filter (fun kv : string * Connector => kv.1 ∈ n :: ns)
                        (CTISIEMIntegration.connectors self) !! k)
          with (@None Connector).
        * cbn [fmap option_fmap option_map]. split; [tauto | discriminate].
        * symmetry. apply eq_None_not_Some. intros [c1 Hc1].
          apply map_lookup_filter_Some in Hc1 as [_ Hin]. contradiction.
    - replace (filter (fun kv : string * Connector => kv.1 ∈ n :: ns)
                      (CTISIEMIntegration.connectors self) !! k)
        with (@None Connector).
      + cbn [fmap option_fmap option_map]. split; [intros [[=] _] | discriminate].
      + symmetry. apply eq_None_not_Some. intros [c1 Hc1].
        apply map_lookup_filter_Some in Hc1 as [Hc1 _]. congruence. }
  rewrite broadcast_intelligence_any_eq.
  - rewrite broadcast_intelligence_eq, Htargets. do 2 f_equal.
    rewrite <- !map_fmap_compose. apply map_fmap_ext. intros k c _.
    unfold compose, safe_push_outcome, raw_of_connector, push_outcome.
    cbn [raw_push]. destruct (push_intelligence c env intelligence_data); reflexivity.
  - intros name connector. rewrite Htargets, lookup_fmap.
    destruct (CTISIEMIntegration.target_connectors self target_siems !! name);
      [|discriminate].
    intros [= <-]. reflexivity.
Qed.




(** C2, as stated, fails for an explicitly empty list of target names:
    with the connector "a" registered and [target_siems = []], "a" is
    targeted and gets an entry although it is not in the provided list. *)
Lemma broadcast_intelligence_empty_names_targets_all :
  let self := CTISIEMIntegration.add_siem_connector CTISIEMIntegration.__init__
                "a" (SIEMConnector.new sample_config) in
  CTISIEMIntegration.target_connectors self (Some []) !! "a"
  = Some (SIEMConnector.new sample_config)
  ∧ CTISIEMIntegration.broadcast_intelligence self offline_env sample_intelligence (Some [])
    = Return {["a" := false]}
  ∧ "a" ∉ ([] : list string).
Proof.
  split; [|split].
  - vm_compute. reflexivity.
  - vm_compute. reflexivity.
  - apply not_elem_of_nil.
Qed.

(** C2, amended.  For every registry and every record, the call returns a
    map whose names are the targeted ones: with [target_siems] omitted (or
    empty) every connector of the registry is targeted; with a non-empty
    list exactly the registry entries whose name is in the list are
    targeted, names absent from the registry being ignored without an
    error, so that the returned map holds exactly the names that are both
    in the registry and in the list. *)
Theorem broadcast_intelligence_resolves_targets
        (self : CTISIEMIntegration.t) (env : Env)
        (intelligence_data : gmap string pyval)
        (target_siems : option (list string)) :
  ∃ results : gmap string bool,
    CTISIEMIntegration.broadcast_intelligence self env intelligence_data target_siems
    = Return results
    ∧ match target_siems with
      | Some (n :: ns) =>
          (∀ name connector,
              CTISIEMIntegration.target_connectors self target_siems !! name
              = Some connector
              ↔ CTISIEMIntegration.connectors self !! name = Some connector
                ∧ name ∈ n :: ns)
          ∧ (∀ name, is_Some (results !! name)
                     ↔ is_Some (CTISIEMIntegration.connectors self !! name)
                       ∧ name ∈ n :: ns)
      | Some [] | None =>
          CTISIEMIntegration.target_connectors self target_siems
          = CTISIEMIntegration.connectors self
          ∧ (∀ name, is_Some (results !! name)
                     ↔ is_Some (CTISIEMIntegration.connectors self !! name))
      end.
Proof.
  eexists. split; [apply broadcast_intelligence_eq|].
  assert (Hall : ∀ m : gmap string Connector, ∀ name,
             is_Some (((fun c => push_outcome c env intelligence_data) <$> m) !! name)
             ↔ is_Some (m !! name)).
  { intros m name. rewrite lookup_fmap, fmap_is_Some. reflexivity. }
  destruct target_siems as [[|n ns]|].
  - split; [reflexivity | intros name; apply Hall].
  - split; [apply target_connectors_lookup_named|].
    intros name. rewrite Hall. unfold is_Some.
    split.
    + intros [c Hc]. apply target_connectors_lookup_named in Hc as [Hc Hin]. eauto.
    + intros [[c Hc] Hin]. exists c. apply target_connectors_lookup_named. auto.
  - split; [reflexivity | intros name; apply Hall].
Qed.

(** C3.  For every call, the counts derived from the returned map satisfy
    success_count <= total_count <= size of the registry; with an empty
    registry the call returns the empty map, and both counts are zero. *)
Theorem broadcast_intelligence_counts_bounded
        (self : CTISIEMIntegration.t) (env : Env)
        (intelligence_data : gmap string pyval)
        (target_siems : option (list string)) :
  (∃ results : gmap string bool,
      CTISIEMIntegration.broadcast_intelligence self env intelligence_data target_siems
      = Return results
      ∧ 0 <= CTISIEMIntegration.success_count results
      ∧ CTISIEMIntegration.success_count results
        <= CTISIEMIntegration.total_count results
      ∧ CTISIEMIntegration.total_count results
        <= Z.of_nat (size (CTISIEMIntegration.connectors self)))
  ∧ CTISIEMIntegration.broadcast_intelligence
      (CTISIEMIntegration.mk ∅ (CTISIEMIntegration.config self))
      env intelligence_data target_siems
    = Return ∅
  ∧ CTISIEMIntegration.total_count ∅ = 0
  ∧ CTISIEMIntegration.success_count ∅ = 0.
Proof.
  split; [|split; [|split]].
  - eexists. split; [apply broadcast_intelligence_eq|].
    pose proof (success_count_le_total
                  ((fun c => push_outcome c env intelligence_data)
                     <$> CTISIEMIntegration.target_connectors self target_siems))
      as [H0 H1].
    split; [exact H0|]. split; [exact H1|].
    unfold CTISIEMIntegration.total_count. rewrite map_size_fmap.
    apply inj_le, map_subseteq_size, target_connectors_subseteq.
  - rewrite broadcast_intelligence_eq. f_equal.
    unfold CTISIEMIntegration.target_connectors. cbn [CTISIEMIntegration.connectors].
    destruct target_siems as [[|n ns]|]; cbn [list_truthy];
      rewrite ?map_filter_empty; apply fmap_empty.
  - reflexivity.
  - reflexivity.
Qed.

(** The example scenario: connector a accepts, connector b is rejected
    with status 500; one of the two pushes succeeds. *)
Example broadcast_scenario_one_of_two :
  let self :=
    CTISIEMIntegration.add_siem_connector
      (CTISIEMIntegration.add_siem_connector CTISIEMIntegration.__init__
         "a" (SplunkConnector.new (SIEMConfig_defaults SPLUNK "https://a" "token")))
      "b" (QRadarConnector.new (SIEMConfig_defaults QRADAR "https://b" "token")) in
  let results : gmap string bool := <["a" := true]> (<["b" := false]> ∅) in
  CTISIEMIntegration.broadcast_intelligence self scenario_env sample_intelligence None
  = Return results
  ∧ CTISIEMIntegration.success_count results = 1
  ∧ CTISIEMIntegration.total_count results = 2.
Proof. vm_compute. repeat split. Qed.

(** A connector whose push always raises next to one whose push always
    succeeds: false for the first, true for the second, and the call
    returns. *)
Example broadcast_faulting_and_succeeding :
  let faulting :=
    mkConnector sample_config (SIEMConnector.__init__ sample_config)
                (fun _ _ => Raise ValueError) in
  let succeeding :=
    mkConnector sample_config (SIEMConnector.__init__ sample_config)
                (fun _ _ => Return true) in
  let self :=
    CTISIEMIntegration.add_siem_connector
      (CTISIEMIntegration.add_siem_connector CTISIEMIntegration.__init__
         "faulting" faulting)
      "succeeding" succeeding in
  CTISIEMIntegration.broadcast_intelligence self offline_env sample_intelligence None
  = Return (<["faulting" := false]> (<["succeeding" := true]> ∅)).
Proof. vm_compute. reflexivity. Qed.

(** C9.  For every record and every registry, an empty list of target
    names behaves as an omitted one: both calls return the same map, and
    that map covers the entire registry, with an entry for every
    registered connector (and for no other name) holding the outcome of
    that connector's push, not the empty set of connectors. *)
Theorem broadcast_intelligence_empty_list_is_all
        (self : CTISIEMIntegration.t) (env : Env)
        (intelligence_data : gmap string pyval) :
  ∃ results : gmap string bool,
    CTISIEMIntegration.broadcast_intelligence self env intelligence_data (Some [])
    = Return results
    ∧ CTISIEMIntegration.broadcast_intelligence self env intelligence_data None
      = Return results
    ∧ CTISIEMIntegration.target_connectors self (Some [])
      = CTISIEMIntegration.connectors self
    ∧ (∀ name, is_Some (results !! name)
               ↔ is_Some (CTISIEMIntegration.connectors self !! name))
    ∧ (∀ name connector,
          CTISIEMIntegration.connectors self !! name = Some connector →
          results !! name
          = Some match push_intelligence connector env intelligence_data with
                 | Return b => b
                 | Raise _ => false
                 end).
Proof.
  exists ((fun connector => push_outcome connector env intelligence_data)
            <$> CTISIEMIntegration.connectors self).
  split; [rewrite broadcast_intelligence_eq; reflexivity|].
  split; [rewrite broadcast_intelligence_eq; reflexivity|].
  split; [reflexivity|].
  split.
  - intros name. rewrite lookup_fmap, fmap_is_Some. reflexivity.
  - intros name connector Hname. rewrite lookup_fmap, Hname. reflexivity.
Qed.

(** C8.  For every record the base (generic) connector's push raises
    [NotImplementedError] instead of returning; wherever such a connector
    is targeted by a broadcast, its entry in the result is false; and the
    factory returns the base connector for every vendor kind that its
    lookup table does not hold (ARCSIGHT is such a kind), as it does for
    GENERIC. *)
Theorem generic_connector_push_not_implemented
        (config : SIEMConfig) (env : Env) (intelligence_data : gmap string pyval) :
  push_intelligence (SIEMConnector.new config) env intelligence_data
  = Raise (NotImplementedError "Subclasses must implement push_intelligence")
  ∧ (∀ (self : CTISIEMIntegration.t) target_siems name,
        CTISIEMIntegration.target_connectors self target_siems !! name
        = Some (SIEMConnector.new config) →
        ∃ results : gmap string bool,
          CTISIEMIntegration.broadcast_intelligence self env intelligence_data
                                                     target_siems
          = Return results
          ∧ results !! name = Some false)
  ∧ (∀ siem_type, connector_map !! siem_type = None →
                  create_siem_connector siem_type config = SIEMConnector.new config)
  ∧ connector_map !! ARCSIGHT = None
  ∧ create_siem_connector GENERIC config = SIEMConnector.new config.
Proof.
  split; [reflexivity|]. split; [|split; [|split]].
  - intros self target_siems name Hname. eexists.
    split; [apply broadcast_intelligence_eq|].
    rewrite lookup_fmap, Hname. reflexivity.
  - intros siem_type Hnone. unfold create_siem_connector. rewrite Hnone. reflexivity.
  - vm_compute. reflexivity.
  - vm_compute. reflexivity.
Qed.

(** ** The mappers *)

Lemma map_severity_cases (s : Z) :
  SIEMConnector._map_severity s
  = if decide (8 <= s) then "critical"%string
    else if decide (6 <= s) then "high"%string
    else if decide (4 <= s) then "medium"%string
    else "low"%string.
Proof.
  unfold SIEMConnector._map_severity. rewrite !Z.geb_leb.
  repeat case_decide; repeat (case_match; try reflexivity); lia.
Qed.

Lemma map_confidence_cases (c : Z) :
  SIEMConnector._map_confidence c
  = if decide (80 <= c) then "high"%string
    else if decide (60 <= c) then "medium"%string
    else "low"%string.
Proof.
  unfold SIEMConnector._map_confidence. rewrite !Z.geb_leb.
  repeat case_decide; repeat (case_match; try reflexivity); lia.
Qed.

(** C4.  For every severity score from 1 to 10 the mapper returns low for
    1-3, medium for 4-5, high for 6-7 and critical for 8-10; it does not
    decrease, in the order low < medium < high < critical, when the score
    grows; and on every integer it returns one of the four levels. *)
Theorem map_severity_bands_monotone (score : Z) :
  1 <= score <= 10 →
  (score <= 3 → SIEMConnector._map_severity score = "low"%string)
  ∧ (4 <= score <= 5 → SIEMConnector._map_severity score = "medium"%string)
  ∧ (6 <= score <= 7 → SIEMConnector._map_severity score = "high"%string)
  ∧ (8 <= score → SIEMConnector._map_severity score = "critical"%string)
  ∧ (∀ other, score <= other <= 10 →
       ∃ r r', level_rank (SIEMConnector._map_severity score) = Some r
               ∧ level_rank (SIEMConnector._map_severity other) = Some r'
               ∧ (r <= r')%nat)
  ∧ (∀ any : Z, ∃ r, level_rank (SIEMConnector._map_severity any) = Some r).
Proof.
  intros Hrange. repeat split.
  - intros H. rewrite map_severity_cases. repeat case_decide; try lia. reflexivity.
  - intros H. rewrite map_severity_cases. repeat case_decide; try lia. reflexivity.
  - intros H. rewrite map_severity_cases. repeat case_decide; try lia. reflexivity.
  - intros H. rewrite map_severity_cases. repeat case_decide; try lia. reflexivity.
  - intros other H. rewrite !map_severity_cases.
    repeat case_decide; try lia; do 2 eexists;
      (split; [reflexivity | split; [reflexivity | lia]]).
  - intros any. rewrite map_severity_cases.
    repeat case_decide; eexists; reflexivity.
Qed.

Lemma map_severity_bands_monotone_witness :
  1 <= 8 <= 10 ∧ SIEMConnector._map_severity 8 = "critical"%string.
Proof.
  assert (H : 1 <= 8 <= 10) by lia.
  split; [exact H|].
  destruct (map_severity_bands_monotone 8 H) as (_ & _ & _ & Hcrit & _).
  apply Hcrit. lia.
Defined.

(** C5.  For every confidence score from 0 to 100 the mapper returns low
    for 0-59, medium for 60-79 and high for 80-100; on every integer it
    returns one of these levels. *)
Theorem map_confidence_bands (score : Z) :
  0 <= score <= 100 →
  (score <= 59 → SIEMConnector._map_confidence score = "low"%string)
  ∧ (60 <= score <= 79 → SIEMConnector._map_confidence score = "medium"%string)
  ∧ (80 <= score → SIEMConnector._map_confidence score = "high"%string)
  ∧ (∀ any : Z, SIEMConnector._map_confidence any = "low"%string
                ∨ SIEMConnector._map_confidence any = "medium"%string
                ∨ SIEMConnector._map_confidence any = "high"%string).
Proof.
  intros Hrange. repeat split.
  - intros H. rewrite map_confidence_cases. repeat case_decide; try lia. reflexivity.
  - intros H. rewrite map_confidence_cases. repeat case_decide; try lia. reflexivity.
  - intros H. rewrite map_confidence_cases. repeat case_decide; try lia. reflexivity.
  - intros any. rewrite map_confidence_cases. repeat case_decide; auto.
Qed.

Lemma map_confidence_bands_witness :
  0 <= 60 <= 100 ∧ SIEMConnector._map_confidence 60 = "medium"%string.
Proof.
  assert (H : 0 <= 60 <= 100) by lia.
  split; [exact H|].
  destruct (map_confidence_bands 60 H) as (_ & Hmed & _).
  apply Hmed. lia.
Defined.

(** ** Document identifier and signature *)

(** C6.  The Elastic connector's document identifier is the SHA-256 (in
    hexadecimal) of the record's IOC hash followed by its submitter; two
    records with the same IOC hash and the same submitter get the same
    identifier, hence the same document URL, whatever their other fields
    are. *)
Theorem elastic_doc_id_of_ioc_hash_and_submitter
        (record1 record2 : gmap string pyval) :
  record1 !! "ioc_hash" = record2 !! "ioc_hash" →
  record1 !! "submitter" = record2 !! "submitter" →
  ElasticConnector.doc_id record1 = ElasticConnector.doc_id record2
  ∧ (∀ config doc1 doc2,
        req_url (ElasticConnector.put_request config doc1 record1)
        = req_url (ElasticConnector.put_request config doc2 record2))
  ∧ (∀ ioc_hash submitter,
        record1 !! "ioc_hash" = Some (PyStr ioc_hash) →
        record1 !! "submitter" = Some (PyStr submitter) →
        ElasticConnector.doc_id record1
        = hashlib.sha256_hexdigest (str_encode (ioc_hash ++ submitter)%string)).
Proof.
  intros Hioc Hsub.
  assert (Hid : ElasticConnector.doc_id record1 = ElasticConnector.doc_id record2).
  { unfold ElasticConnector.doc_id, dict_get. rewrite Hioc, Hsub. reflexivity. }
  split; [exact Hid|]. split.
  - intros config doc1 doc2. unfold ElasticConnector.put_request. cbn [req_url].
    rewrite Hid. reflexivity.
  - intros ioc_hash submitter H1 H2.
    unfold ElasticConnector.doc_id, dict_get. rewrite H1, H2. reflexivity.
Qed.

Lemma elastic_doc_id_of_ioc_hash_and_submitter_witness :
  ElasticConnector.doc_id sample_intelligence
  = ElasticConnector.doc_id (<["severity" := PyInt 1]> (delete "id" sample_intelligence)).
Proof.
  assert (Hioc : sample_intelligence !! "ioc_hash"
                 = <["severity" := PyInt 1]> (delete "id" sample_intelligence)
                     !! "ioc_hash")
    by (vm_compute; reflexivity).
  assert (Hsub : sample_intelligence !! "submitter"
                 = <["severity" := PyInt 1]> (delete "id" sample_intelligence)
                     !! "submitter")
    by (vm_compute; reflexivity).
  destruct (elastic_doc_id_of_ioc_hash_and_submitter _ _ Hioc Hsub) as [Hid _].
  exact Hid.
Defined.

Example elastic_doc_id_sample :
  ElasticConnector.doc_id sample_intelligence
  = "b6977b40acfd586321f7d05f3ed9e645a7eda775a4b9d0ed60c4b3f8dd5c0680"%string.
Proof. vm_compute. reflexivity. Qed.

(** C7, as stated, fails on the fourth line of the canonical string: the
    code signs the header name [x-ms-date:] followed by the date, not the
    header value alone, so the string and the signature differ from those
    of the string as specified. *)
Lemma sentinel_signature_date_line_carries_header_name :
  let date := "Tue, 14 Nov 2023 22:13:20 GMT"%string in
  let secret := "c2VjcmV0LWtleQ=="%string in
  String.eqb (SentinelConnector.string_to_hash "[]" date)
             (string_to_hash_as_specified "[]" date)
  = false
  ∧ ∃ signature specified,
      SentinelConnector._build_signature
        (SentinelConnector.string_to_hash "[]" date) secret
      = Return signature
      ∧ SentinelConnector._build_signature
          (string_to_hash_as_specified "[]" date) secret
        = Return specified
      ∧ String.eqb signature specified = false.
Proof.
  cbv zeta. split; [vm_compute; reflexivity|].
  do 2 eexists. split; [vm_compute; reflexivity|].
  split; [vm_compute; reflexivity|]. vm_compute. reflexivity.
Qed.

(** C7, amended.  With a shared secret that base64-decodes to [key], the
    Sentinel connector's signature is the base64 text of the HMAC-SHA256,
    keyed by [key], of the UTF-8 bytes of the five lines POST, the length
    of the body, application/json, the text [x-ms-date:] followed by the
    value of the x-ms-date header, and /api/logs, joined by newlines; for
    a fixed secret, body and date the signature is the same, and indeed
    the same for every body of that length. *)
Theorem sentinel_signature_hmac_of_canonical_string
        (secret body date : string) (key : list byte) :
  base64.b64decode secret = Return key →
  SentinelConnector._build_signature
    (SentinelConnector.string_to_hash body date) secret
  = Return (ascii_decode
              (base64.b64encode
                 (hmac.new_sha256_digest key
                    (str_encode
                       (str_join newline
                          ["POST"; str_of_int (Z.of_nat (String.length body));
                           "application/json"; ("x-ms-date:" ++ date);
                           "/api/logs"]%string)))))
  ∧ (∀ body',
        String.length body' = String.length body →
        SentinelConnector._build_signature
          (SentinelConnector.string_to_hash body' date) secret
        = SentinelConnector._build_signature
            (SentinelConnector.string_to_hash body date) secret).
Proof.
  intros Hkey. split.
  - unfold SentinelConnector._build_signature. rewrite Hkey.
    unfold SentinelConnector.string_to_hash. reflexivity.
  - intros body' Hlen. unfold SentinelConnector.string_to_hash.
    rewrite Hlen. reflexivity.
Qed.

Lemma sentinel_signature_hmac_of_canonical_string_witness :
  SentinelConnector._build_signature
    (SentinelConnector.string_to_hash "[]" "Tue, 14 Nov 2023 22:13:20 GMT")
    "c2VjcmV0LWtleQ=="
  = Return (ascii_decode
              (base64.b64encode
                 (hmac.new_sha256_digest (str_encode "secret-key")
                    (str_encode
                       (str_join newline
                          ["POST"; str_of_int (Z.of_nat (String.length "[]"));
                           "application/json";
                           ("x-ms-date:" ++ "Tue, 14 Nov 2023 22:13:20 GMT");
                           "/api/logs"]%string))))).
Proof.
  assert (Hkey : base64.b64decode "c2VjcmV0LWtleQ==" = Return (str_encode "secret-key"))
    by (vm_compute; reflexivity).
  destruct (sentinel_signature_hmac_of_canonical_string
              "c2VjcmV0LWtleQ==" "[]" "Tue, 14 Nov 2023 22:13:20 GMT"
              (str_encode "secret-key") Hkey) as [Hsig _].
  exact Hsig.
Defined.

Example sentinel_signature_known_answer :
  (log_data ← SentinelConnector.log_data
                (mkEnv 1700000000 "2023-11-14T22:13:20+00:00"
                       "Tue, 14 Nov 2023 22:13:20 GMT" (send offline_env))
                sample_intelligence;
   SentinelConnector._build_signature
     (SentinelConnector.string_to_hash (json.dumps log_data)
                                       "Tue, 14 Nov 2023 22:13:20 GMT")
     "c2VjcmV0LWtleQ==")
  = Return "T6kyryqC9tz6KdUxEDDbyPBabqsCe6D3CzSluNcLK6E="%string.
Proof. vm_compute. reflexivity. Qed.

(** ** Missing fields *)

Lemma dict_get_insert_eq (d : gmap string pyval) (key : string) (v dflt : pyval) :
  dict_get (<[key := v]> d) key dflt = v.
Proof. unfold dict_get. rewrite lookup_insert_eq. reflexivity. Qed.

Lemma dict_get_insert_ne (d : gmap string pyval) (key key' : string) (v dflt : pyval) :
  key ≠ key' → dict_get (<[key := v]> d) key' dflt = dict_get d key' dflt.
Proof. intros Hne. unfold dict_get. rewrite lookup_insert_ne by exact Hne. reflexivity. Qed.

Lemma dict_get_missing (d : gmap string pyval) (key : string) (dflt : pyval) :
  d !! key = None → dict_get d key dflt = dflt.
Proof. intros Hnone. unfold dict_get. rewrite Hnone. reflexivity. Qed.

(** A body guarded by a handler that returns false always returns. *)
Lemma try_except_false_returns (body : result bool) :
  ∃ b, try_except body (fun _ => Return false) = Return b.
Proof. destruct body as [b|e]; eexists; reflexivity. Qed.

Lemma vendor_push_returns (config : SIEMConfig) (connector : Connector)
      (env : Env) (intelligence_data : gmap string pyval) :
  connector ∈ vendor_connectors config →
  ∃ b, push_intelligence connector env intelligence_data = Return b.
Proof.
  intros Hin. apply list_elem_of_In in Hin. cbn [vendor_connectors In] in Hin.
  destruct Hin as [<-|[<-|[<-|[<-|[]]]]]; apply try_except_false_returns.
Qed.

(** The class the factory instantiates for each vendor kind. *)
Lemma create_siem_connector_table (siem_type : SIEMType) (config : SIEMConfig) :
  create_siem_connector siem_type config
  = match siem_type with
    | SPLUNK => SplunkConnector.new config
    | QRADAR => QRadarConnector.new config
    | SENTINEL => SentinelConnector.new config
    | ELASTIC => ElasticConnector.new config
    | GENERIC | ARCSIGHT => SIEMConnector.new config
    end.
Proof. destruct siem_type; reflexivity. Qed.

(** Every connector the factory creates is of one of the five classes. *)
Lemma create_siem_connector_class (siem_type : SIEMType) (config : SIEMConfig) :
  create_siem_connector siem_type config ∈ all_connectors config.
Proof.
  rewrite create_siem_connector_table.
  apply list_elem_of_In. unfold all_connectors, vendor_connectors.
  destruct siem_type; cbn [In]; tauto.
Qed.

(** Rewrites the reads of a record in which [key] was set to its default
    into the reads of the record in which [key] is missing. *)
Ltac reads_of_default Hmissing :=
  rewrite ?dict_get_insert_eq;
  rewrite ?dict_get_insert_ne by discriminate;
  rewrite ?(dict_get_missing _ _ _ Hmissing);
  reflexivity.

Lemma vendor_payloads_default (env : Env) (intelligence_data : gmap string pyval)
      (key : string) (dflt : pyval) :
  (key, dflt) ∈ payload_defaults →
  intelligence_data !! key = None →
  vendor_payloads env (<[key := dflt]> intelligence_data)
  = vendor_payloads env intelligence_data.
Proof.
  intros Hin Hmissing.
  apply list_elem_of_In in Hin. cbn [payload_defaults In] in Hin.
  unfold vendor_payloads, SplunkConnector.splunk_event, QRadarConnector.qradar_event,
    SentinelConnector.log_data, ElasticConnector.doc.
  destruct Hin as [Heq|[Heq|[Heq|[Heq|[Heq|[]]]]]];
    injection Heq as <- <-; reads_of_default Hmissing.
Qed.

Lemma vendor_push_default (config : SIEMConfig) (connector : Connector) (env : Env)
      (intelligence_data : gmap string pyval) (key : string) (dflt : pyval) :
  (key, dflt) ∈ payload_defaults →
  intelligence_data !! key = None →
  connector ∈ all_connectors config →
  push_intelligence connector env (<[key := dflt]> intelligence_data)
  = push_intelligence connector env intelligence_data.
Proof.
  intros Hin Hmissing Hconn.
  pose proof (vendor_payloads_default env _ _ _ Hin Hmissing) as Hpay.
  unfold vendor_payloads in Hpay.
  injection Hpay as Hsplunk Hqradar Hsentinel Helastic.
  apply list_elem_of_In in Hconn.
  cbn [all_connectors vendor_connectors In] in Hconn.
  destruct Hconn as [<-|[<-|[<-|[<-|[<-|[]]]]]]; cbn [push_intelligence
    SIEMConnector.new SplunkConnector.new QRadarConnector.new
    SentinelConnector.new ElasticConnector.new].
  - reflexivity.
  - unfold SplunkConnector.push_intelligence. rewrite Hsplunk. reflexivity.
  - unfold QRadarConnector.push_intelligence. rewrite Hqradar. reflexivity.
  - unfold SentinelConnector.push_intelligence. rewrite Hsentinel. reflexivity.
  - unfold ElasticConnector.push_intelligence. rewrite Helastic.
    assert (Hid : ElasticConnector.doc_id (<[key := dflt]> intelligence_data)
                  = ElasticConnector.doc_id intelligence_data).
    { apply list_elem_of_In in Hin. cbn [payload_defaults In] in Hin.
      unfold ElasticConnector.doc_id.
      destruct Hin as [Heq|[Heq|[Heq|[Heq|[Heq|[]]]]]];
        injection Heq as <- <-; reads_of_default Hmissing. }
    unfold ElasticConnector.put_request. rewrite Hid. reflexivity.
Qed.

(** C10.  A field among severity, confidence_score, mitre_techniques,
    is_verified and validation_count that is missing from the record is
    read as 1, 0, the empty list, false and 0 respectively: every vendor
    connector builds the payload that it builds for the record with the
    field set to that value, and every connector, of whichever class and
    however the factory created it, gives the same push result for both
    records.  Every vendor push returns a flag, and with all five fields
    missing every vendor payload is built without a fault. *)
Theorem vendor_payloads_read_missing_fields_as_defaults
        (env : Env) (intelligence_data : gmap string pyval)
        (key : string) (dflt : pyval) :
  (key, dflt) ∈ payload_defaults →
  intelligence_data !! key = None →
  vendor_payloads env intelligence_data
  = vendor_payloads env (<[key := dflt]> intelligence_data)
  ∧ (∀ config connector,
        connector ∈ all_connectors config →
        push_intelligence connector env intelligence_data
        = push_intelligence connector env (<[key := dflt]> intelligence_data))
  ∧ (∀ siem_type config,
        push_intelligence (create_siem_connector siem_type config)
                          env intelligence_data
        = push_intelligence (create_siem_connector siem_type config)
                            env (<[key := dflt]> intelligence_data))
  ∧ (∀ config connector,
        connector ∈ vendor_connectors config →
        ∃ b, push_intelligence connector env intelligence_data = Return b)
  ∧ ((∀ key' dflt', (key', dflt') ∈ payload_defaults →
                    intelligence_data !! key' = None) →
     Forall (fun payload => ∃ v, payload = Return v)
            (vendor_payloads env intelligence_data)).
Proof.
  intros Hin Hmissing. split; [|split; [|split; [|split]]].
  - symmetry. apply vendor_payloads_default; assumption.
  - intros config connector Hconn.
    symmetry. eapply vendor_push_default; eassumption.
  - intros siem_type config.
    symmetry. eapply vendor_push_default; try eassumption.
    apply create_siem_connector_class.
  - intros config connector Hconn.
    eapply vendor_push_returns; eassumption.
  - intros Hall.
    assert (Hsev := Hall "severity"%string (PyInt 1)).
    assert (Hconf := Hall "confidence_score"%string (PyInt 0)).
    assert (Hmitre := Hall "mitre_techniques"%string (PyList [])).
    unfold vendor_payloads, SplunkConnector.splunk_event, QRadarConnector.qradar_event,
      SentinelConnector.log_data, ElasticConnector.doc.
    rewrite (dict_get_missing _ "severity" _)
      by (apply Hsev; apply list_elem_of_In; cbn; tauto).
    rewrite (dict_get_missing _ "confidence_score" _)
      by (apply Hconf; apply list_elem_of_In; cbn; tauto).
    rewrite (dict_get_missing _ "mitre_techniques" _)
      by (apply Hmitre; apply list_elem_of_In; cbn; tauto).
    repeat constructor; eexists; reflexivity.
Qed.

Lemma vendor_payloads_read_missing_fields_as_defaults_witness :
  vendor_payloads offline_env (delete "severity" sample_intelligence)
  = vendor_payloads offline_env
      (<["severity" := PyInt 1]> (delete "severity" sample_intelligence)).
Proof.
  assert (Hin : ("severity"%string, PyInt 1) ∈ payload_defaults)
    by (apply list_elem_of_In; cbn; tauto).
  assert (Hmissing : delete "severity" sample_intelligence !! "severity" = None)
    by (vm_compute; reflexivity).
  destruct (vendor_payloads_read_missing_fields_as_defaults
              offline_env _ _ _ Hin Hmissing) as [Heq _].
  exact Heq.
Defined.

(** ** Further properties: the registry and the broadcast *)

(** A loop whose body never raises is a fold. *)
Lemma for_each_total {A S} (step : S → A → S) (l : list A) (acc : S) :
  for_each (fun s a => Return (step s a)) l acc = Return (fold_left step l acc).
Proof.
  revert acc. induction l as [|a l IH]; intros acc; [reflexivity|].
  cbn [for_each fold_left]. apply IH.
Qed.

(** Storing one value per entry of a map, entry by entry, yields the map
    of the values. *)
Lemma fold_insert_fmap {B} (f : Connector → B) (m : gmap string Connector) :
  fold_left (fun (acc : gmap string B) (kv : string * Connector) =>
               <[kv.1 := f kv.2]> acc) (map_to_list m) ∅
  = f <$> m.
Proof.
  assert (Hgen : ∀ (items : list (string * Connector)) (acc : gmap string B) name,
             NoDup items.*1 →
             fold_left (fun (acc : gmap string B) (kv : string * Connector) =>
                          <[kv.1 := f kv.2]> acc) items acc !! name
             = match (list_to_map items : gmap string Connector) !! name with
               | Some c => Some (f c)
               | None => acc !! name
               end).
  { induction items as [|[k c] items IH]; intros acc name Hnd; [reflexivity|].
    rewrite fmap_cons in Hnd. apply NoDup_cons in Hnd as [Hk Hnd].
    cbn [fst] in Hk. cbn [fold_left fst snd].
    rewrite IH by exact Hnd. cbn [list_to_map foldr fst snd uncurry].
    destruct (decide (k = name)) as [->|Hne].
    - rewrite (not_elem_of_list_to_map_1 items name Hk).
      rewrite !lookup_insert_eq. reflexivity.
    - rewrite !lookup_insert_ne by exact Hne. reflexivity. }
  apply map_eq. intros name.
  rewrite Hgen by apply NoDup_fst_map_to_list.
  rewrite list_to_map_to_list, lookup_fmap, lookup_empty.
  destruct (m !! name); reflexivity.
Qed.

(** X1.  Registry updates: a name added is bound to the connector given,
    replacing an earlier one (last write wins); a name removed is unbound;
    no other name is affected by either; removing a name that is not
    registered changes nothing, and removing a name just added to a
    registry that did not hold it gives the registry back. *)
Theorem registry_add_remove_lookup
        (self : CTISIEMIntegration.t) (name other : string)
        (connector earlier : Connector) :
  CTISIEMIntegration.connectors
    (CTISIEMIntegration.add_siem_connector self name connector) !! name
  = Some connector
  ∧ CTISIEMIntegration.add_siem_connector
      (CTISIEMIntegration.add_siem_connector self name earlier) name connector
    = CTISIEMIntegration.add_siem_connector self name connector
  ∧ CTISIEMIntegration.connectors
      (CTISIEMIntegration.remove_siem_connector self name) !! name
    = None
  ∧ (other ≠ name →
     CTISIEMIntegration.connectors
       (CTISIEMIntegration.add_siem_connector self name connector) !! other
     = CTISIEMIntegration.connectors self !! other
     ∧ CTISIEMIntegration.connectors
         (CTISIEMIntegration.remove_siem_connector self name) !! other
       = CTISIEMIntegration.connectors self !! other)
  ∧ (CTISIEMIntegration.connectors self !! name = None →
     CTISIEMIntegration.remove_siem_connector self name = self
     ∧ CTISIEMIntegration.remove_siem_connector
         (CTISIEMIntegration.add_siem_connector self name connector) name
       = self).
Proof.
  destruct self as [registry cfg].
  unfold CTISIEMIntegration.add_siem_connector,
    CTISIEMIntegration.remove_siem_connector.
  cbn [CTISIEMIntegration.connectors CTISIEMIntegration.config].
  split; [apply lookup_insert_eq|].
  split; [rewrite insert_insert_eq; reflexivity|].
  split.
  { case_decide as Hsome; cbn [CTISIEMIntegration.connectors].
    - apply lookup_delete_eq.
    - apply eq_None_not_Some. exact Hsome. }
  split.
  { intros Hne. split; [apply lookup_insert_ne; congruence|].
    case_decide; cbn [CTISIEMIntegration.connectors]; [|reflexivity].
    apply lookup_delete_ne. congruence. }
  intros Hnone. split.
  - rewrite decide_False; [reflexivity|].
    rewrite Hnone. intros [c Hc]. discriminate.
  - rewrite decide_True by (rewrite lookup_insert_eq; eauto).
    rewrite delete_insert_eq. rewrite delete_id by exact Hnone. reflexivity.
Qed.

(** X2.  After a connector is removed, a broadcast has no entry for its
    name, whatever the target names, and every other name keeps the entry
    it had. *)
Theorem broadcast_after_remove_has_no_entry
        (self : CTISIEMIntegration.t) (env : Env)
        (intelligence_data : gmap string pyval)
        (target_siems : option (list string)) (name : string) :
  ∃ before after : gmap string bool,
    CTISIEMIntegration.broadcast_intelligence self env intelligence_data target_siems
    = Return before
    ∧ CTISIEMIntegration.broadcast_intelligence
        (CTISIEMIntegration.remove_siem_connector self name)
        env intelligence_data target_siems
      = Return after
    ∧ after !! name = None
    ∧ ∀ other, other ≠ name → after !! other = before !! other.
Proof.
  do 2 eexists. split; [apply broadcast_intelligence_eq|].
  split; [apply broadcast_intelligence_eq|].
  assert (Hreg : ∀ k,
             CTISIEMIntegration.connectors
               (CTISIEMIntegration.remove_siem_connector self name) !! k
             = if decide (k = name) then None
               else CTISIEMIntegration.connectors self !! k).
  { intros k. unfold CTISIEMIntegration.remove_siem_connector.
    destruct (decide (is_Some (CTISIEMIntegration.connectors self !! name)))
      as [Hsome|Hnone]; cbn [CTISIEMIntegration.connectors].
    - rewrite lookup_delete. destruct (decide (name = k)), (decide (k = name));
        congruence.
    - destruct (decide (k = name)) as [->|]; [|reflexivity].
      apply eq_None_not_Some. exact Hnone. }
  assert (Htgt : ∀ k,
             CTISIEMIntegration.target_connectors
               (CTISIEMIntegration.remove_siem_connector self name) target_siems !! k
             = if decide (k = name) then None
               else CTISIEMIntegration.target_connectors self target_siems !! k).
  { intros k. unfold CTISIEMIntegration.target_connectors.
    destruct target_siems as [[|n ns]|]; cbn [list_truthy]; try apply Hreg.
    apply option_eq. intros c.
    destruct (decide (k = name)) as [->|Hne].
    - rewrite map_lookup_filter_Some, Hreg, decide_True by reflexivity.
      split; [intros [? _]; discriminate | discriminate].
    - rewrite !map_lookup_filter_Some, Hreg, decide_False by exact Hne.
      reflexivity. }
  split.
  - rewrite lookup_fmap, Htgt, decide_True by reflexivity. reflexivity.
  - intros other Hne. rewrite !lookup_fmap, Htgt, decide_False by exact Hne.
    reflexivity.
Qed.

(** X3.  A non-empty list of target names none of which is registered
    selects no connector: the broadcast returns the empty map (it does not
    fall back to the whole registry). *)
Theorem broadcast_unknown_names_is_empty
        (self : CTISIEMIntegration.t) (env : Env)
        (intelligence_data : gmap string pyval) (names : list string) :
  names ≠ [] →
  (∀ name, name ∈ names → CTISIEMIntegration.connectors self !! name = None) →
  CTISIEMIntegration.broadcast_intelligence self env intelligence_data (Some names)
  = Return ∅.
Proof.
  intros Hne Hunknown. rewrite broadcast_intelligence_eq. f_equal.
  apply map_eq. intros k. rewrite lookup_fmap, lookup_empty.
  destruct names as [|n ns]; [congruence|].
  destruct (CTISIEMIntegration.target_connectors self (Some (n :: ns)) !! k)
    as [c|] eqn:Hk; [|reflexivity].
  apply target_connectors_lookup_named in Hk as [Hk Hin].
  rewrite (Hunknown k Hin) in Hk. discriminate.
Qed.

Lemma broadcast_unknown_names_is_empty_witness :
  CTISIEMIntegration.broadcast_intelligence
    (CTISIEMIntegration.add_siem_connector CTISIEMIntegration.__init__
       "a" (SIEMConnector.new sample_config))
    offline_env sample_intelligence (Some ["b"; "c"])
  = Return ∅.
Proof.
  apply broadcast_unknown_names_is_empty.
  - discriminate.
  - intros name Hin. apply list_elem_of_In in Hin. cbn [In] in Hin.
    destruct Hin as [<-|[<-|[]]]; vm_compute; reflexivity.
Defined.

(** X4.  Only the set of target names matters: two non-empty lists with
    the same members, in any order and with any repetitions, give the same
    broadcast result. *)
Theorem broadcast_target_names_as_set
        (self : CTISIEMIntegration.t) (env : Env)
        (intelligence_data : gmap string pyval) (names names' : list string) :
  names ≠ [] → names' ≠ [] →
  (∀ name, name ∈ names ↔ name ∈ names') →
  CTISIEMIntegration.broadcast_intelligence self env intelligence_data (Some names)
  = CTISIEMIntegration.broadcast_intelligence self env intelligence_data (Some names').
Proof.
  intros Hne Hne' Hsame. rewrite !broadcast_intelligence_eq. do 2 f_equal.
  destruct names as [|n ns]; [congruence|].
  destruct names' as [|n' ns']; [congruence|].
  apply map_eq. intros k. apply option_eq. intros c.
  rewrite !target_connectors_lookup_named, Hsame. reflexivity.
Qed.

Lemma broadcast_target_names_as_set_witness :
  let self :=
    CTISIEMIntegration.add_siem_connector
      (CTISIEMIntegration.add_siem_connector
         (CTISIEMIntegration.add_siem_connector CTISIEMIntegration.__init__
            "a" (SplunkConnector.new (SIEMConfig_defaults SPLUNK "https://a" "token")))
         "b" (QRadarConnector.new (SIEMConfig_defaults QRADAR "https://b" "token")))
      "c" (SIEMConnector.new sample_config) in
  CTISIEMIntegration.broadcast_intelligence
    self scenario_env sample_intelligence (Some ["a"; "b"])
  = CTISIEMIntegration.broadcast_intelligence
      self scenario_env sample_intelligence (Some ["b"; "a"; "b"])
  ∧ CTISIEMIntegration.broadcast_intelligence
      self scenario_env sample_intelligence (Some ["a"; "b"])
    = Return (<["a" := true]> (<["b" := false]> ∅)).
Proof.
  cbv zeta. split.
  - apply broadcast_target_names_as_set.
    + discriminate.
    + discriminate.
    + intros name. rewrite !elem_of_cons, !elem_of_nil. tauto.
  - vm_compute. reflexivity.
Defined.

Lemma filter_length_all (f : bool → bool) (l : list bool) :
  length (List.filter f l) = length l ↔ ∀ b, In b l → f b = true.
Proof.
  induction l as [|x l IH]; cbn [List.filter length In].
  - split; [intros _ b [] | reflexivity].
  - pose proof (List.filter_length_le f l) as Hle.
    destruct (f x) eqn:Hx; cbn [length].
    + split.
      * intros Hlen b [<-|Hb]; [exact Hx|]. apply IH; [lia | exact Hb].
      * intros Hall. f_equal. apply IH. intros b Hb. apply Hall. right. exact Hb.
    + split; [lia|]. intros Hall.
      specialize (Hall x (or_introl eq_refl)). congruence.
Qed.

Lemma result_values (results : gmap string bool) (b : bool) :
  In b (map_to_list results).*2 ↔ ∃ name, results !! name = Some b.
Proof.
  rewrite <- list_elem_of_In, list_elem_of_fmap. split.
  - intros [[k v] [-> Hkv]]. exists k. apply elem_of_map_to_list. exact Hkv.
  - intros [k Hk]. exists (k, b). split; [reflexivity|].
    apply elem_of_map_to_list. exact Hk.
Qed.

Lemma success_count_zero_iff (results : gmap string bool) :
  CTISIEMIntegration.success_count results = 0
  ↔ ∀ name b, results !! name = Some b → b = false.
Proof.
  unfold CTISIEMIntegration.success_count. rewrite count_ones.
  change 0 with (Z.of_nat 0). rewrite Nat2Z.inj_iff. split.
  - intros Hlen name b Hb. destruct b; [|reflexivity].
    assert (Hin : In true (List.filter (fun success : bool => success)
                                       (map_to_list results).*2)).
    { apply List.filter_In. split; [apply result_values; eauto | reflexivity]. }
    destruct (List.filter (fun success : bool => success) (map_to_list results).*2);
      [destruct Hin | discriminate].
  - intros Hall.
    destruct (List.filter (fun success : bool => success) (map_to_list results).*2)
      as [|b rest] eqn:Hf; [reflexivity|].
    assert (Hin : In b (b :: rest)) by (left; reflexivity).
    rewrite <- Hf in Hin. apply List.filter_In in Hin as [Hin Hb].
    apply result_values in Hin as [name Hname].
    rewrite (Hall name b Hname) in Hb. discriminate.
Qed.

Lemma success_count_total_iff (results : gmap string bool) :
  CTISIEMIntegration.success_count results = CTISIEMIntegration.total_count results
  ↔ ∀ name b, results !! name = Some b → b = true.
Proof.
  unfold CTISIEMIntegration.success_count, CTISIEMIntegration.total_count.
  rewrite count_ones, <- length_map_to_list.
  rewrite <- (length_fmap snd (map_to_list results)).
  rewrite Nat2Z.inj_iff, filter_length_all. split.
  - intros Hall name b Hb. apply Hall, result_values. eauto.
  - intros Hall b Hb. apply result_values in Hb as [name Hb]. eauto.
Qed.

(** X5.  The success count of a result map equals its total count exactly
    when every entry is true, and is zero exactly when every entry is
    false. *)
Theorem success_count_all_or_none (results : gmap string bool) :
  (CTISIEMIntegration.success_count results = CTISIEMIntegration.total_count results
   ↔ ∀ name b, results !! name = Some b → b = true)
  ∧ (CTISIEMIntegration.success_count results = 0
     ↔ ∀ name b, results !! name = Some b → b = false).
Proof. split; [apply success_count_total_iff | apply success_count_zero_iff]. Qed.

Lemma for_each_ext {A S} (body body' : S → A → result S) (l : list A) (acc : S) :
  (∀ s a, body s a = body' s a) →
  for_each body l acc = for_each body' l acc.
Proof.
  intros Hext. revert acc. induction l as [|a l IH]; intros acc; [reflexivity|].
  cbn [for_each]. rewrite Hext. destruct (body' acc a); [apply IH | reflexivity].
Qed.

(** The outcome of a connector's health probe. *)
Lemma test_connection_cases (config : SIEMConfig) (session : Session) (env : Env) :
  SIEMConnector.test_connection config session env
  = Return match send env session
                   (mkRequest "GET" (endpoint config ++ "/health")%string ""
                              [] (timeout config)) with
           | Return response => status_code response =? 200
           | Raise _ => false
           end.
Proof.
  unfold SIEMConnector.test_connection.
  destruct (send env session _); reflexivity.
Qed.

(** The connectivity test stores, for every registered connector, the
    outcome of its health probe. *)
Lemma test_all_connections_eq (self : CTISIEMIntegration.t) (env : Env) :
  CTISIEMIntegration.test_all_connections self env
  = Return ((fun c : Connector =>
               match send env (session c)
                          (mkRequest "GET" (endpoint (config c) ++ "/health")%string ""
                                     [] (timeout (config c))) with
               | Return response => status_code response =? 200
               | Raise _ => false
               end) <$> CTISIEMIntegration.connectors self).
Proof.
  unfold CTISIEMIntegration.test_all_connections.
  rewrite <- fold_insert_fmap, <- for_each_total.
  apply for_each_ext. intros results [name [cfg sess push]]. cbn [fst snd].
  rewrite test_connection_cases. reflexivity.
Qed.

(** X6.  [test_all_connections] always returns, with one entry per
    registered connector; the entry is true exactly when the GET of the
    connector's health path was answered with status 200, and false when
    the transport raised or answered anything else. *)
Theorem test_all_connections_reports_every_probe
        (self : CTISIEMIntegration.t) (env : Env) :
  ∃ results : gmap string bool,
    CTISIEMIntegration.test_all_connections self env = Return results
    ∧ (∀ name, is_Some (results !! name)
               ↔ is_Some (CTISIEMIntegration.connectors self !! name))
    ∧ ∀ name connector,
        CTISIEMIntegration.connectors self !! name = Some connector →
        let probe :=
          send env (session connector)
               (mkRequest "GET" (endpoint (config connector) ++ "/health")%string ""
                          [] (timeout (config connector))) in
        (results !! name = Some true
         ↔ ∃ response, probe = Return response ∧ status_code response = 200)
        ∧ (results !! name = Some false
           ↔ (∃ e, probe = Raise e)
             ∨ ∃ response, probe = Return response ∧ status_code response ≠ 200).
Proof.
  eexists. split; [apply test_all_connections_eq|]. split.
  - intros name. rewrite lookup_fmap, fmap_is_Some. reflexivity.
  - intros name connector Hname probe. rewrite lookup_fmap, Hname.
    cbn [fmap option_fmap option_map]. fold probe.
    destruct probe as [response|e]; split; split.
    + intros [= H]. exists response. split; [reflexivity|]. apply Z.eqb_eq. exact H.
    + intros (r & [= <-] & H). f_equal. apply Z.eqb_eq. exact H.
    + intros [= H]. right. exists response. split; [reflexivity|].
      apply Z.eqb_neq. exact H.
    + intros [[e [=]]|(r & [= <-] & H)]. f_equal. apply Z.eqb_neq. exact H.
    + intros [=].
    + intros (r & [=] & _).
    + intros _. left. eauto.
    + reflexivity.
Qed.

Lemma fold_left_pointwise {A S} (f g : S → A → S) (l : list A) (acc : S) :
  (∀ s a, f s a = g s a) → fold_left f l acc = fold_left g l acc.
Proof.
  intros Hext. revert acc. induction l as [|a l IH]; intros acc; [reflexivity|].
  cbn [fold_left]. rewrite Hext. apply IH.
Qed.

(** The factory hands the configuration it is given to the connector. *)
Lemma create_siem_connector_config (siem_type : SIEMType) (cfg : SIEMConfig) :
  config (create_siem_connector siem_type cfg) = cfg.
Proof. rewrite create_siem_connector_table. destruct siem_type; reflexivity. Qed.

(** X7.  [get_connector_status] lists exactly the registered names, each
    with the vendor kind, endpoint, TLS flag and timeout of its
    connector's configuration.  For a connector made by the factory the
    kind reported is the one written in the configuration, whichever kind
    the factory was asked for. *)
Theorem get_connector_status_reports_configs (self : CTISIEMIntegration.t) :
  (∀ name,
      CTISIEMIntegration.get_connector_status self !! name
      = (fun connector =>
           PyDict [("siem_type", PyStr (SIEMType_value (siem_type (config connector))));
                   ("endpoint", PyStr (endpoint (config connector)));
                   ("verify_ssl", PyBool (verify_ssl (config connector)));
                   ("timeout", PyInt (timeout (config connector)))])
          <$> CTISIEMIntegration.connectors self !! name)
  ∧ ∀ name asked cfg,
      CTISIEMIntegration.connectors self !! name
      = Some (create_siem_connector asked cfg) →
      CTISIEMIntegration.get_connector_status self !! name
      = Some (PyDict [("siem_type", PyStr (SIEMType_value (siem_type cfg)));
                      ("endpoint", PyStr (endpoint cfg));
                      ("verify_ssl", PyBool (verify_ssl cfg));
                      ("timeout", PyInt (timeout cfg))]).
Proof.
  assert (Hstatus : ∀ name,
      CTISIEMIntegration.get_connector_status self !! name
      = (fun connector =>
           PyDict [("siem_type", PyStr (SIEMType_value (siem_type (config connector))));
                   ("endpoint", PyStr (endpoint (config connector)));
                   ("verify_ssl", PyBool (verify_ssl (config connector)));
                   ("timeout", PyInt (timeout (config connector)))])
          <$> CTISIEMIntegration.connectors self !! name).
  { intros name. rewrite <- lookup_fmap, <- fold_insert_fmap.
    unfold CTISIEMIntegration.get_connector_status. f_equal.
    apply fold_left_pointwise. intros status [k [cfg sess push]]. reflexivity. }
  split; [exact Hstatus|].
  intros name asked cfg Hname. rewrite Hstatus, Hname.
  cbn [fmap option_fmap option_map]. rewrite create_siem_connector_config.
  reflexivity.
Qed.

(** X8.  The factory chooses the class by the kind it is asked for and
    passes the configuration on unchanged, with the TLS flag of the
    session taken from it; the connector it returns raises on a push
    exactly for the kinds GENERIC and ARCSIGHT, and returns a flag for
    every other kind. *)
Theorem create_siem_connector_dispatch (asked : SIEMType) (cfg : SIEMConfig) :
  config (create_siem_connector asked cfg) = cfg
  ∧ verify (session (create_siem_connector asked cfg)) = verify_ssl cfg
  ∧ ((asked = GENERIC ∨ asked = ARCSIGHT) →
     ∀ env intelligence_data,
       ∃ e, push_intelligence (create_siem_connector asked cfg) env intelligence_data
            = Raise e)
  ∧ (¬ (asked = GENERIC ∨ asked = ARCSIGHT) →
     ∀ env intelligence_data,
       ∃ b, push_intelligence (create_siem_connector asked cfg) env intelligence_data
            = Return b).
Proof.
  split; [apply create_siem_connector_config|].
  rewrite create_siem_connector_table.
  split; [|split].
  - destruct asked; cbn [session SIEMConnector.new SplunkConnector.new
      QRadarConnector.new SentinelConnector.new ElasticConnector.new].
    + unfold SplunkConnector.__init__, SIEMConnector.__init__.
      destruct (truthy (PyStr (api_key cfg))); reflexivity.
    + unfold QRadarConnector.__init__, SIEMConnector.__init__.
      destruct (truthy (PyStr (api_key cfg))); reflexivity.
    + unfold SIEMConnector.__init__.
      destruct (truthy (PyStr (api_key cfg))); reflexivity.
    + unfold SentinelConnector.__init__, SIEMConnector.__init__.
      destruct (truthy (PyStr (api_key cfg))); reflexivity.
    + unfold ElasticConnector.__init__, SIEMConnector.__init__.
      destruct (username cfg), (password cfg); cbn [truthy];
        repeat match goal with
               | |- context [if ?b then _ else _] => destruct b
               end; reflexivity.
    + unfold SIEMConnector.__init__.
      destruct (truthy (PyStr (api_key cfg))); reflexivity.
  - intros [->| ->] env intelligence_data; eexists; reflexivity.
  - intros Hvendor env intelligence_data.
    destruct asked; try (exfalso; apply Hvendor; auto; fail);
      apply try_except_false_returns.
Qed.

(** ** Further properties: the vendor pushes *)

(** A push that builds a payload, sends one request and classifies the
    status returns true exactly when all three steps succeed. *)
Lemma guarded_push_true_iff {A} (payload : result A) (request : A → Request)
      (accepted : Z → bool) (env : Env) (session : Session) :
  try_except
    (p ← payload;
     response ← send env session (request p);
     if accepted (status_code response) then Return true else Return false)
    (fun e => Return false)
  = Return true
  ↔ ∃ p response,
      payload = Return p
      ∧ send env session (request p) = Return response
      ∧ accepted (status_code response) = true.
Proof.
  destruct payload as [p|e]; cbn.
  - destruct (send env session (request p)) as [response|e] eqn:Hsend; cbn.
    + destruct (accepted (status_code response)) eqn:Hacc; cbn.
      * split; [intros _; exists p, response; auto | reflexivity].
      * split; [discriminate|].
        intros (p' & r' & [= <-] & Hs & Ha). rewrite Hsend in Hs.
        injection Hs as <-. congruence.
    + split; [discriminate|].
      intros (p' & r' & [= <-] & Hs & _). rewrite Hsend in Hs. discriminate.
  - split; [discriminate|]. intros (p' & r' & [=] & _).
Qed.

(** X9.  A Splunk push returns true exactly when the event is built (the
    severity and the confidence score are numbers) and the POST of its
    JSON text to the collector path of the endpoint is answered with
    status 200; in every other case it returns false. *)
Theorem splunk_push_accepts_200_only
        (cfg : SIEMConfig) (env : Env) (intelligence_data : gmap string pyval) :
  (push_intelligence (SplunkConnector.new cfg) env intelligence_data = Return true
   ↔ ∃ event response,
       SplunkConnector.splunk_event env intelligence_data = Return event
       ∧ send env (session (SplunkConnector.new cfg))
              (mkRequest "POST" (endpoint cfg ++ "/services/collector/event")%string
                         (json.dumps event) [] (timeout cfg))
         = Return response
       ∧ status_code response = 200)
  ∧ (push_intelligence (SplunkConnector.new cfg) env intelligence_data = Return true
     ∨ push_intelligence (SplunkConnector.new cfg) env intelligence_data
       = Return false).
Proof.
  split.
  - cbn [push_intelligence SplunkConnector.new session].
    unfold SplunkConnector.push_intelligence.
    rewrite (guarded_push_true_iff
               (SplunkConnector.splunk_event env intelligence_data)
               (fun event =>
                  mkRequest "POST" (endpoint cfg ++ "/services/collector/event")%string
                            (json.dumps event) [] (timeout cfg))
               (fun status => status =? 200)).
    split; intros (event & response & H1 & H2 & H3); exists event, response;
      (split; [exact H1 | split; [exact H2 | apply Z.eqb_eq; exact H3]]).
  - destruct (try_except_false_returns
                (splunk_event ← SplunkConnector.splunk_event env intelligence_data;
                 response ← send env (SplunkConnector.__init__ cfg)
                   (mkRequest "POST" (endpoint cfg ++ "/services/collector/event")%string
                              (json.dumps splunk_event) [] (timeout cfg));
                 if status_code response =? 200 then Return true else Return false))
      as [[|] Hb]; [left | right]; exact Hb.
Qed.

(** X10.  A QRadar push returns true exactly when the event is built (the
    severity and the confidence score are numbers, the techniques can be
    joined) and the POST of its JSON text to the events path of the
    endpoint is answered with status 200 or 201; in every other case it
    returns false. *)
Theorem qradar_push_accepts_200_or_201
        (cfg : SIEMConfig) (env : Env) (intelligence_data : gmap string pyval) :
  (push_intelligence (QRadarConnector.new cfg) env intelligence_data = Return true
   ↔ ∃ event response,
       QRadarConnector.qradar_event intelligence_data = Return event
       ∧ send env (session (QRadarConnector.new cfg))
              (mkRequest "POST" (endpoint cfg ++ "/api/siem/events")%string
                         (json.dumps event) [] (timeout cfg))
         = Return response
       ∧ (status_code response = 200 ∨ status_code response = 201))
  ∧ (push_intelligence (QRadarConnector.new cfg) env intelligence_data = Return true
     ∨ push_intelligence (QRadarConnector.new cfg) env intelligence_data
       = Return false).
Proof.
  split.
  - cbn [push_intelligence QRadarConnector.new session].
    unfold QRadarConnector.push_intelligence.
    rewrite (guarded_push_true_iff
               (QRadarConnector.qradar_event intelligence_data)
               (fun event =>
                  mkRequest "POST" (endpoint cfg ++ "/api/siem/events")%string
                            (json.dumps event) [] (timeout cfg))
               (fun status => (status =? 200) || (status =? 201))).
    split; intros (event & response & H1 & H2 & H3); exists event, response;
      (split; [exact H1 | split; [exact H2 |]]).
    + apply orb_true_iff in H3 as [H3|H3]; apply Z.eqb_eq in H3; auto.
    + apply orb_true_iff. destruct H3 as [H3|H3]; apply Z.eqb_eq in H3; auto.
  - destruct (try_except_false_returns
                (qradar_event ← QRadarConnector.qradar_event intelligence_data;
                 response ← send env (QRadarConnector.__init__ cfg)
                   (mkRequest "POST" (endpoint cfg ++ "/api/siem/events")%string
                              (json.dumps qradar_event) [] (timeout cfg));
                 if (status_code response =? 200) || (status_code response =? 201)
                 then Return true else Return false))
      as [[|] Hb]; [left | right]; exact Hb.
Qed.

(** X11.  An Elastic push returns true exactly when the document is built
    (the confidence score and the severity are numbers) and the PUT of its
    JSON text to the document path named by the record's document
    identifier is answered with status 200 or 201; in every other case it
    returns false. *)
Theorem elastic_push_accepts_200_or_201
        (cfg : SIEMConfig) (env : Env) (intelligence_data : gmap string pyval) :
  (push_intelligence (ElasticConnector.new cfg) env intelligence_data = Return true
   ↔ ∃ doc response,
       ElasticConnector.doc env intelligence_data = Return doc
       ∧ send env (session (ElasticConnector.new cfg))
              (mkRequest "PUT"
                 (endpoint cfg ++ "/cti-intelligence/_doc/"
                    ++ ElasticConnector.doc_id intelligence_data)%string
                 (json.dumps doc) [] (timeout cfg))
         = Return response
       ∧ (status_code response = 200 ∨ status_code response = 201))
  ∧ (push_intelligence (ElasticConnector.new cfg) env intelligence_data = Return true
     ∨ push_intelligence (ElasticConnector.new cfg) env intelligence_data
       = Return false).
Proof.
  split.
  - cbn [push_intelligence ElasticConnector.new session].
    unfold ElasticConnector.push_intelligence.
    rewrite (guarded_push_true_iff
               (ElasticConnector.doc env intelligence_data)
               (fun doc => ElasticConnector.put_request cfg doc intelligence_data)
               (fun status => (status =? 200) || (status =? 201))).
    unfold ElasticConnector.put_request.
    split; intros (doc & response & H1 & H2 & H3); exists doc, response;
      (split; [exact H1 | split; [exact H2 |]]).
    + apply orb_true_iff in H3 as [H3|H3]; apply Z.eqb_eq in H3; auto.
    + apply orb_true_iff. destruct H3 as [H3|H3]; apply Z.eqb_eq in H3; auto.
  - destruct (try_except_false_returns
                (doc ← ElasticConnector.doc env intelligence_data;
                 response ← send env (ElasticConnector.__init__ cfg)
                   (ElasticConnector.put_request cfg doc intelligence_data);
                 if (status_code response =? 200) || (status_code response =? 201)
                 then Return true else Return false))
      as [[|] Hb]; [left | right]; exact Hb.
Qed.

(** X12.  A Sentinel push returns true exactly when the log entry is
    built, the shared key decodes so that the signature is computed, and
    the POST of the JSON text to the workspace's ingestion URL, carrying
    the signature in the Authorization header and the signed date in
    x-ms-date, is answered with status 200; in every other case it returns
    false. *)
Theorem sentinel_push_accepts_200_only
        (cfg : SIEMConfig) (env : Env) (intelligence_data : gmap string pyval) :
  (push_intelligence (SentinelConnector.new cfg) env intelligence_data = Return true
   ↔ ∃ log signature response,
       SentinelConnector.log_data env intelligence_data = Return log
       ∧ SentinelConnector._build_signature
           (SentinelConnector.string_to_hash (json.dumps log) (utcnow_strftime env))
           (api_key cfg)
         = Return signature
       ∧ send env (session (SentinelConnector.new cfg))
              (mkRequest "POST"
                 ("https://" ++ py_str (opt_str (username cfg))
                    ++ ".ods.opinsights.azure.com/api/logs?api-version=2016-04-01")%string
                 (json.dumps log)
                 [("Content-Type", "application/json");
                  ("Authorization",
                   "SharedKey " ++ py_str (opt_str (username cfg)) ++ ":" ++ signature);
                  ("Log-Type", "CTIThreatIntelligence");
                  ("x-ms-date", utcnow_strftime env)]%string
                 (timeout cfg))
         = Return response
       ∧ status_code response = 200)
  ∧ (push_intelligence (SentinelConnector.new cfg) env intelligence_data = Return true
     ∨ push_intelligence (SentinelConnector.new cfg) env intelligence_data
       = Return false).
Proof.
  cbn [push_intelligence SentinelConnector.new session].
  unfold SentinelConnector.push_intelligence, SentinelConnector.workspace_id,
    SentinelConnector.shared_key.
  destruct (SentinelConnector.log_data env intelligence_data) as [log|e]; cbn.
  2:{ split; [|auto]. split; [discriminate|]. intros (? & ? & ? & [=] & _). }
  destruct (SentinelConnector._build_signature _ (api_key cfg))
    as [signature|e] eqn:Hsig; cbn.
  2:{ split; [|auto]. split; [discriminate|].
      intros (? & ? & ? & [= <-] & Hs & _). rewrite Hsig in Hs. discriminate. }
  match goal with
  | |- context [send env ?s ?r] => destruct (send env s r) as [response|e] eqn:Hsend
  end; cbn.
  2:{ split; [|auto]. split; [discriminate|].
      intros (? & ? & ? & [= <-] & Hs & Hr & _). rewrite Hsig in Hs.
      injection Hs as <-. rewrite Hsend in Hr. discriminate. }
  destruct (status_code response =? 200) eqn:Hstatus; cbn.
  - split; [|auto]. split; [|reflexivity]. intros _.
    exists log, signature, response. repeat split; try assumption.
    apply Z.eqb_eq. exact Hstatus.
  - split; [|auto]. split; [discriminate|].
    intros (? & ? & ? & [= <-] & Hs & Hr & H200). rewrite Hsig in Hs.
    injection Hs as <-. rewrite Hsend in Hr. injection Hr as <-.
    apply Z.eqb_neq in Hstatus. contradiction.
Qed.

(** With a transport that raises on every request, no connector made by
    the factory reports a success. *)
Lemma push_outcome_offline (env : Env) (asked : SIEMType) (cfg : SIEMConfig)
      (intelligence_data : gmap string pyval) :
  (∀ session request, ∃ e, send env session request = Raise e) →
  push_outcome (create_siem_connector asked cfg) env intelligence_data = false.
Proof.
  intros Hfault. rewrite create_siem_connector_table. unfold push_outcome.
  destruct asked; cbn [push_intelligence SIEMConnector.new SplunkConnector.new
    QRadarConnector.new SentinelConnector.new ElasticConnector.new]; try reflexivity.
  - unfold SplunkConnector.push_intelligence.
    destruct (SplunkConnector.splunk_event env intelligence_data) as [p|]; cbn;
      [|reflexivity].
    match goal with
    | |- context [send env ?s ?r] => destruct (Hfault s r) as [e ->]
    end. reflexivity.
  - unfold QRadarConnector.push_intelligence.
    destruct (QRadarConnector.qradar_event intelligence_data) as [p|]; cbn;
      [|reflexivity].
    match goal with
    | |- context [send env ?s ?r] => destruct (Hfault s r) as [e ->]
    end. reflexivity.
  - unfold SentinelConnector.push_intelligence.
    destruct (SentinelConnector.log_data env intelligence_data) as [p|]; cbn;
      [|reflexivity].
    destruct (SentinelConnector._build_signature _ _) as [sig|]; cbn; [|reflexivity].
    match goal with
    | |- context [send env ?s ?r] => destruct (Hfault s r) as [e ->]
    end. reflexivity.
  - unfold ElasticConnector.push_intelligence.
    destruct (ElasticConnector.doc env intelligence_data) as [p|]; cbn;
      [|reflexivity].
    match goal with
    | |- context [send env ?s ?r] => destruct (Hfault s r) as [e ->]
    end. reflexivity.
Qed.

(** X13.  When the transport raises on every request, a broadcast over a
    registry of connectors made by the factory still returns, every entry
    is false and the success count is zero; the connectivity test reports
    false for every connector as well. *)
Theorem transport_faults_report_all_false
        (self : CTISIEMIntegration.t) (env : Env)
        (intelligence_data : gmap string pyval)
        (target_siems : option (list string)) :
  (∀ session request, ∃ e, send env session request = Raise e) →
  (∀ name connector,
      CTISIEMIntegration.connectors self !! name = Some connector →
      ∃ asked cfg, connector = create_siem_connector asked cfg) →
  ∃ results probes : gmap string bool,
    CTISIEMIntegration.broadcast_intelligence self env intelligence_data target_siems
    = Return results
    ∧ (∀ name b, results !! name = Some b → b = false)
    ∧ CTISIEMIntegration.success_count results = 0
    ∧ CTISIEMIntegration.test_all_connections self env = Return probes
    ∧ ∀ name b, probes !! name = Some b → b = false.
Proof.
  intros Hfault Hmade.
  do 2 eexists. split; [apply broadcast_intelligence_eq|].
  assert (Hfalse : ∀ name b,
             ((fun c => push_outcome c env intelligence_data)
                <$> CTISIEMIntegration.target_connectors self target_siems) !! name
             = Some b → b = false).
  { intros name b. rewrite lookup_fmap.
    destruct (CTISIEMIntegration.target_connectors self target_siems !! name)
      as [c|] eqn:Hc; [|discriminate].
    intros [= <-].
    pose proof (target_connectors_subseteq self target_siems) as Hsub.
    eapply lookup_weaken in Hc; [|exact Hsub].
    destruct (Hmade name c Hc) as (asked & cfg & ->).
    apply push_outcome_offline. exact Hfault. }
  split; [exact Hfalse|]. split.
  - apply success_count_zero_iff. exact Hfalse.
  - split; [apply test_all_connections_eq|].
    intros name b. rewrite lookup_fmap.
    destruct (CTISIEMIntegration.connectors self !! name) as [c|]; [|discriminate].
    cbn [fmap option_fmap option_map]. intros [= <-].
    match goal with
    | |- context [send env ?s ?r] => destruct (Hfault s r) as [e ->]
    end. reflexivity.
Qed.

Lemma transport_faults_report_all_false_witness :
  ∃ results probes : gmap string bool,
    CTISIEMIntegration.broadcast_intelligence
      (CTISIEMIntegration.add_siem_connector CTISIEMIntegration.__init__
         "primary_splunk" (create_siem_connector SPLUNK sample_config))
      offline_env sample_intelligence None
    = Return results
    ∧ (∀ name b, results !! name = Some b → b = false)
    ∧ CTISIEMIntegration.success_count results = 0
    ∧ CTISIEMIntegration.test_all_connections
        (CTISIEMIntegration.add_siem_connector CTISIEMIntegration.__init__
           "primary_splunk" (create_siem_connector SPLUNK sample_config))
        offline_env
      = Return probes
    ∧ ∀ name b, probes !! name = Some b → b = false.
Proof.
  apply transport_faults_report_all_false.
  - intros session request. eexists. reflexivity.
  - intros name connector.
    unfold CTISIEMIntegration.add_siem_connector, CTISIEMIntegration.__init__.
    cbn [CTISIEMIntegration.connectors].
    rewrite lookup_insert. case_decide; [|rewrite lookup_empty; discriminate].
    intros [= <-]. eauto.
Defined.

(** X14.  A severity that is present but is not a number (None, a string,
    a list or a dict) makes every vendor push return false, whatever the
    transport would answer: the default 1 is used only when the field is
    missing. *)
Theorem non_numeric_severity_fails_push
        (cfg : SIEMConfig) (connector : Connector) (env : Env)
        (intelligence_data : gmap string pyval) (severity : pyval) :
  intelligence_data !! "severity" = Some severity →
  (∀ n, severity ≠ PyInt n) →
  (∀ b, severity ≠ PyBool b) →
  connector ∈ vendor_connectors cfg →
  push_intelligence connector env intelligence_data = Return false.
Proof.
  intros Hsev Hint Hbool Hin.
  assert (Hop : int_operand (dict_get intelligence_data "severity" (PyInt 1))
                = Raise TypeError).
  { unfold dict_get. rewrite Hsev. cbn [default].
    destruct severity; try reflexivity; [destruct (Hbool b) | destruct (Hint n)];
      reflexivity. }
  apply list_elem_of_In in Hin. cbn [vendor_connectors In] in Hin.
  destruct Hin as [<-|[<-|[<-|[<-|[]]]]]; cbn [push_intelligence
    SplunkConnector.new QRadarConnector.new SentinelConnector.new ElasticConnector.new].
  - unfold SplunkConnector.push_intelligence, SplunkConnector.splunk_event.
    rewrite Hop. reflexivity.
  - unfold QRadarConnector.push_intelligence, QRadarConnector.qradar_event.
    rewrite Hop. reflexivity.
  - unfold SentinelConnector.push_intelligence, SentinelConnector.log_data.
    rewrite Hop. reflexivity.
  - unfold ElasticConnector.push_intelligence, ElasticConnector.doc.
    rewrite Hop.
    destruct (int_operand (dict_get intelligence_data "confidence_score" (PyInt 0)));
      reflexivity.
Qed.

Lemma non_numeric_severity_fails_push_witness :
  push_intelligence (SplunkConnector.new sample_config) scenario_env
                    (<["severity" := PyNone]> sample_intelligence)
  = Return false.
Proof.
  apply (non_numeric_severity_fails_push sample_config _ _ _ PyNone).
  - apply lookup_insert_eq.
  - discriminate.
  - discriminate.
  - apply list_elem_of_here.
Defined.

(** X15.  A Sentinel connector whose shared key is not decodable base64
    never reports a success: every push returns false, whatever the record
    and whatever the transport would answer. *)
Theorem sentinel_undecodable_key_fails_push
        (cfg : SIEMConfig) (env : Env) (intelligence_data : gmap string pyval)
        (e : exn) :
  base64.b64decode (api_key cfg) = Raise e →
  push_intelligence (SentinelConnector.new cfg) env intelligence_data = Return false.
Proof.
  intros Hkey. cbn [push_intelligence SentinelConnector.new].
  unfold SentinelConnector.push_intelligence.
  destruct (SentinelConnector.log_data env intelligence_data) as [log|]; cbn;
    [|reflexivity].
  unfold SentinelConnector._build_signature, SentinelConnector.shared_key.
  rewrite Hkey. reflexivity.
Qed.

Lemma sentinel_undecodable_key_fails_push_witness :
  push_intelligence
    (SentinelConnector.new
       (mkSIEMConfig SENTINEL "" "your-shared-key" (Some "your-workspace-id") None
                     true 30 3))
    scenario_env sample_intelligence
  = Return false.
Proof.
  apply (sentinel_undecodable_key_fails_push _ _ _ BinasciiError).
  vm_compute. reflexivity.
Defined.

(** ** Further properties: the size of the digest, the document identifier
    and the signature *)

Lemma be_bytes_length (n : nat) (v : Z) : length (be_bytes n v) = n.
Proof. induction n as [|n IH]; cbn [be_bytes length]; congruence. Qed.

Lemma round_length (st : list Z) (kw : Z * Z) :
  length (hashlib.round st kw) = length st.
Proof.
  unfold hashlib.round.
  destruct st as [|a [|b [|c [|d [|e [|f [|g [|h [|i rest]]]]]]]]]; reflexivity.
Qed.

Lemma rounds_length (kws : list (Z * Z)) (st : list Z) :
  length (fold_left hashlib.round kws st) = length st.
Proof.
  revert st. induction kws as [|kw kws IH]; intros st; [reflexivity|].
  cbn [fold_left]. rewrite IH. apply round_length.
Qed.

Lemma compress_length (h : list Z) (block : list byte) :
  length (hashlib.compress h block) = length h.
Proof.
  unfold hashlib.compress.
  rewrite List.length_map, List.length_combine, rounds_length. lia.
Qed.

Lemma compress_all_length (blocks : list (list byte)) (h : list Z) :
  length (fold_left hashlib.compress blocks h) = length h.
Proof.
  revert h. induction blocks as [|b blocks IH]; intros h; [reflexivity|].
  cbn [fold_left]. rewrite IH. apply compress_length.
Qed.

Lemma words_bytes_length (h : list Z) :
  length (List.concat (List.map (be_bytes 4) h)) = (4 * length h)%nat.
Proof.
  induction h as [|w h IH]; [reflexivity|].
  cbn [List.map List.concat]. rewrite List.length_app, be_bytes_length, IH.
  cbn [length]. lia.
Qed.

(** A SHA-256 digest has 32 bytes. *)
Lemma sha256_digest_length (data : list byte) :
  length (hashlib.sha256_digest data) = 32%nat.
Proof.
  unfold hashlib.sha256_digest.
  rewrite words_bytes_length, compress_all_length. reflexivity.
Qed.

Lemma b64encode_length_bounded (n : nat) (b : list byte) :
  (length b <= n)%nat →
  length (base64.b64encode b) = (4 * ((length b + 2) / 3))%nat.
Proof.
  revert b. induction n as [|n IH]; intros b Hlen.
  - destruct b; [reflexivity | cbn in Hlen; lia].
  - destruct b as [|x [|y [|z rest]]]; try reflexivity.
    cbn [base64.b64encode length]. cbn [length] in Hlen.
    rewrite IH by lia.
    replace (S (S (S (length rest))) + 2)%nat
      with ((length rest + 2) + 1 * 3)%nat by lia.
    rewrite Nat.div_add by lia. lia.
Qed.

Lemma ascii_decode_length (b : list byte) :
  String.length (ascii_decode b) = length b.
Proof.
  unfold ascii_decode. induction b as [|x b IH]; [reflexivity|].
  simpl. f_equal. exact IH.
Qed.

(** X17.  Whenever the Sentinel signature is computed (the secret
    decodes), it has 44 characters, whatever the message and the length of
    the key. *)
Theorem sentinel_signature_has_44_characters
        (message secret signature : string) :
  SentinelConnector._build_signature message secret = Return signature →
  String.length signature = 44%nat.
Proof.
  unfold SentinelConnector._build_signature.
  destruct (base64.b64decode secret) as [key|e]; cbn [mbind result_bind];
    [|discriminate].
  intros [= <-]. rewrite ascii_decode_length.
  rewrite (b64encode_length_bounded 32) by
    (unfold hmac.new_sha256_digest; rewrite sha256_digest_length; lia).
  unfold hmac.new_sha256_digest. rewrite sha256_digest_length. reflexivity.
Qed.

Lemma sentinel_signature_has_44_characters_witness :
  String.length "T6kyryqC9tz6KdUxEDDbyPBabqsCe6D3CzSluNcLK6E=" = 44%nat.
Proof.
  apply (sentinel_signature_has_44_characters
           (SentinelConnector.string_to_hash
              (match SentinelConnector.log_data
                       (mkEnv 1700000000 "2023-11-14T22:13:20+00:00"
                              "Tue, 14 Nov 2023 22:13:20 GMT" (send offline_env))
                       sample_intelligence with
               | Return log => json.dumps log
               | Raise _ => ""
               end)
              "Tue, 14 Nov 2023 22:13:20 GMT")
           "c2VjcmV0LWtleQ==").
  vm_compute. reflexivity.
Defined.

(** ** Further properties: the body is ASCII *)

(** Induction on values that reaches the items of lists and dicts. *)
Section pyval_induction.
Context (P : pyval → Prop).
Context (HNone : P PyNone) (HBool : ∀ b, P (PyBool b)) (HInt : ∀ n, P (PyInt n))
        (HStr : ∀ s, P (PyStr s))
        (HList : ∀ xs, List.Forall P xs → P (PyList xs))
        (HDict : ∀ kvs, List.Forall (fun kv => P kv.2) kvs → P (PyDict kvs)).

Fixpoint pyval_nested_ind (v : pyval) : P v :=
  match v with
  | PyNone => HNone
  | PyBool b => HBool b
  | PyInt n => HInt n
  | PyStr s => HStr s
  | PyList xs =>
      HList xs ((fix items (l : list pyval) : List.Forall P l :=
                   match l with
                   | [] => @List.Forall_nil _ P
                   | x :: rest =>
                       @List.Forall_cons _ P x rest (pyval_nested_ind x) (items rest)
                   end) xs)
  | PyDict kvs =>
      HDict kvs ((fix items (l : list (string * pyval))
                    : List.Forall (fun kv => P kv.2) l :=
                    match l with
                    | [] => @List.Forall_nil _ (fun kv => P kv.2)
                    | kv :: rest =>
                        @List.Forall_cons _ (fun kv => P kv.2) kv rest
                                          (pyval_nested_ind kv.2) (items rest)
                    end) kvs)
  end.

End pyval_induction.

Lemma is_ascii_app (s1 s2 : string) :
  base64.is_ascii (s1 ++ s2)%string = base64.is_ascii s1 && base64.is_ascii s2.
Proof.
  induction s1 as [|c s1 IH]; [reflexivity|].
  simpl. rewrite IH. apply andb_assoc.
Qed.

Lemma str_encode_ascii_length (s : string) :
  base64.is_ascii s = true → length (str_encode s) = String.length s.
Proof.
  induction s as [|c s IH]; [reflexivity|].
  simpl. intros H. apply andb_true_iff in H as [Hc Hs].
  rewrite Hc. simpl. f_equal. apply IH. exact Hs.
Qed.

Lemma is_ascii_join (sep : string) (parts : list string) :
  base64.is_ascii sep = true →
  List.Forall (fun p => base64.is_ascii p = true) parts →
  base64.is_ascii (str_join sep parts) = true.
Proof.
  intros Hsep Hparts. induction Hparts as [|p rest Hp Hrest IH]; [reflexivity|].
  destruct rest as [|q rest]; [exact Hp|].
  change (str_join sep (p :: q :: rest))
    with (p ++ sep ++ str_join sep (q :: rest))%string.
  rewrite !is_ascii_app, Hp, Hsep, IH. reflexivity.
Qed.

Lemma is_ascii_uint (u : Decimal.uint) :
  base64.is_ascii (NilEmpty.string_of_uint u) = true.
Proof. induction u; simpl; try rewrite IHu; reflexivity. Qed.

Lemma is_ascii_str_of_int (n : Z) : base64.is_ascii (str_of_int n) = true.
Proof.
  unfold str_of_int, NilZero.string_of_int, NilZero.string_of_uint.
  destruct (Z.to_int n) as [u|u]; destruct u; try reflexivity;
    try apply (is_ascii_uint (Decimal.D0 _));
    try apply (is_ascii_uint (Decimal.D1 _));
    try apply (is_ascii_uint (Decimal.D2 _));
    try apply (is_ascii_uint (Decimal.D3 _));
    try apply (is_ascii_uint (Decimal.D4 _));
    try apply (is_ascii_uint (Decimal.D5 _));
    try apply (is_ascii_uint (Decimal.D6 _));
    try apply (is_ascii_uint (Decimal.D7 _));
    try apply (is_ascii_uint (Decimal.D8 _));
    try apply (is_ascii_uint (Decimal.D9 _));
    simpl; rewrite is_ascii_uint; reflexivity.
Qed.

Lemma escape_cons (c : ascii) (rest : string) :
  json.escape (String c rest)
  = (json.escape (String c "") ++ json.escape rest)%string.
Proof.
  assert (Hnil : ∀ s : string, (s ++ "")%string = s).
  { induction s as [|a s IH]; [reflexivity|].
    change (String a (s ++ "")%string = String a s). f_equal. exact IH. }
  cbn [json.escape]. rewrite Hnil. reflexivity.
Qed.

Lemma is_ascii_escape_char (c : ascii) :
  base64.is_ascii (json.escape (String c "")) = true.
Proof. destruct c as [[] [] [] [] [] [] [] []]; vm_compute; reflexivity. Qed.

Lemma is_ascii_escape (s : string) : base64.is_ascii (json.escape s) = true.
Proof.
  induction s as [|c s IH]; [reflexivity|].
  rewrite escape_cons, is_ascii_app, is_ascii_escape_char, IH. reflexivity.
Qed.

Lemma is_ascii_encode_str (s : string) :
  base64.is_ascii (json.encode_str s) = true.
Proof.
  unfold json.encode_str.
  change (String dquote (json.escape s) ++ String dquote "")%string
    with (String dquote (json.escape s ++ String dquote ""))%string.
  change (base64.is_ascii (String dquote (json.escape s ++ String dquote "")))
    with ((ord dquote <? 128)
          && base64.is_ascii (json.escape s ++ String dquote "")).
  rewrite is_ascii_app, is_ascii_escape. reflexivity.
Qed.

(** The JSON text of every value is made of ASCII characters only. *)
Lemma is_ascii_dumps (v : pyval) : base64.is_ascii (json.dumps v) = true.
Proof.
  induction v as [| [|] | n | s | xs IH | kvs IH] using pyval_nested_ind;
    try reflexivity.
  - apply is_ascii_str_of_int.
  - apply is_ascii_encode_str.
  - change (json.dumps (PyList xs))
      with ("[" ++ str_join ", " (List.map json.dumps xs) ++ "]")%string.
    rewrite !is_ascii_app, is_ascii_join; [reflexivity | reflexivity |].
    apply List.Forall_map. exact IH.
  - change (json.dumps (PyDict kvs))
      with ("{" ++ str_join ", "
                     (List.map (fun kv => json.encode_str kv.1 ++ ": "
                                            ++ json.dumps kv.2) kvs)
                ++ "}")%string.
    rewrite !is_ascii_app, is_ascii_join; [reflexivity | reflexivity |].
    apply List.Forall_map. eapply List.Forall_impl; [|exact IH].
    intros kv Hkv. cbn beta.
    rewrite !is_ascii_app, is_ascii_encode_str, Hkv. reflexivity.
Qed.

(** X18.  The body a connector sends is ASCII whatever text the record
    holds (other characters are escaped), so the length the Sentinel
    connector signs, counted in characters, is the number of bytes of the
    body. *)
Theorem sentinel_signed_length_is_byte_length (payload : pyval) (date : string) :
  base64.is_ascii (json.dumps payload) = true
  ∧ length (str_encode (json.dumps payload)) = String.length (json.dumps payload)
  ∧ SentinelConnector.string_to_hash (json.dumps payload) date
    = str_join newline
        ["POST"; str_of_int (Z.of_nat (length (str_encode (json.dumps payload))));
         "application/json"; ("x-ms-date:" ++ date); "/api/logs"]%string.
Proof.
  pose proof (is_ascii_dumps payload) as Hascii.
  split; [exact Hascii|]. split; [apply str_encode_ascii_length; exact Hascii|].
  rewrite str_encode_ascii_length by exact Hascii. reflexivity.
Qed.

(** ** Further properties: value ranges and sessions *)

(** X19.  Whenever the QRadar event is built it has one entry with qid
    99999; its severity is the record's severity clamped into 1..10, that
    is min(10, max(1, severity)), the severity itself when it lies in that
    range; its relevance is 10 when is_verified is true and 5 otherwise;
    and its credibility is min(10, confidence // 10), a tenth of the
    confidence score rounded down and capped at 10: between 0 and 10 for a
    score that is not negative, and negative for a negative score, which
    is not clamped. *)
Theorem qradar_event_value_ranges
        (intelligence_data : gmap string pyval) (event : pyval) :
  QRadarConnector.qradar_event intelligence_data = Return event →
  ∃ severity confidence sev cred rel properties,
    int_operand (dict_get intelligence_data "severity" (PyInt 1)) = Return severity
    ∧ int_operand (dict_get intelligence_data "confidence_score" (PyInt 0))
      = Return confidence
    ∧ event = PyDict [("events", PyList [PyDict
                [("qid", PyInt 99999); ("severity", PyInt sev);
                 ("credibility", PyInt cred); ("relevance", PyInt rel);
                 ("properties", PyDict properties)]])]
    ∧ sev = Z.min 10 (Z.max 1 severity)
    ∧ cred = Z.min 10 (confidence / 10)
    ∧ rel = (if truthy (dict_get intelligence_data "is_verified" PyNone) then 10 else 5)
    ∧ 1 <= sev <= 10
    ∧ (1 <= severity <= 10 → sev = severity)
    ∧ (severity < 1 → sev = 1) ∧ (10 < severity → sev = 10)
    ∧ cred <= 10
    ∧ (0 <= confidence → 0 <= cred)
    ∧ (confidence < 0 → cred < 0)
    ∧ (100 <= confidence → cred = 10)
    ∧ (rel = 5 ∨ rel = 10).
Proof.
  unfold QRadarConnector.qradar_event.
  destruct (int_operand (dict_get intelligence_data "severity" (PyInt 1)))
    as [severity|]; cbn [mbind result_bind]; [|discriminate].
  destruct (int_operand (dict_get intelligence_data "confidence_score" (PyInt 0)))
    as [confidence|]; cbn [mbind result_bind]; [|discriminate].
  destruct (py_join "," (dict_get intelligence_data "mitre_techniques" (PyList [])))
    as [techniques|]; cbn [mbind result_bind]; [|discriminate].
  intros [= <-]. do 6 eexists.
  split; [reflexivity|]. split; [reflexivity|]. split; [reflexivity|].
  unfold QRadarConnector._qradar_severity_mapping.
  split; [reflexivity|]. split; [reflexivity|]. split; [reflexivity|].
  pose proof (Z.div_pos confidence 10).
  pose proof (Z.div_lt_upper_bound confidence 10 0).
  pose proof (Z.div_le_lower_bound confidence 10 10).
  repeat split; try lia.
  destruct (truthy _); auto.
Qed.

Lemma qradar_event_value_ranges_witness :
  ∃ severity confidence sev cred rel properties,
    int_operand (dict_get sample_intelligence "severity" (PyInt 1)) = Return severity
    ∧ int_operand (dict_get sample_intelligence "confidence_score" (PyInt 0))
      = Return confidence
    ∧ match QRadarConnector.qradar_event sample_intelligence with
      | Return event => event
      | Raise _ => PyNone
      end
      = PyDict [("events", PyList [PyDict
                  [("qid", PyInt 99999); ("severity", PyInt sev);
                   ("credibility", PyInt cred); ("relevance", PyInt rel);
                   ("properties", PyDict properties)]])]
    ∧ sev = Z.min 10 (Z.max 1 severity)
    ∧ cred = Z.min 10 (confidence / 10)
    ∧ rel = (if truthy (dict_get sample_intelligence "is_verified" PyNone) then 10 else 5)
    ∧ 1 <= sev <= 10
    ∧ (1 <= severity <= 10 → sev = severity)
    ∧ (severity < 1 → sev = 1) ∧ (10 < severity → sev = 10)
    ∧ cred <= 10
    ∧ (0 <= confidence → 0 <= cred)
    ∧ (confidence < 0 → cred < 0)
    ∧ (100 <= confidence → cred = 10)
    ∧ (rel = 5 ∨ rel = 10).
Proof.
  apply (qradar_event_value_ranges sample_intelligence).
  vm_compute. reflexivity.
Defined.

(** X20.  The mappers apply no range check: on all integers they do not
    decrease when the score grows; a severity below 4 (also 0 or a
    negative one) is low and one from 8 up (also above 10) is critical; a
    confidence below 60 (also a negative one) is low and one from 80 up
    (also above 100) is high. *)
Theorem mappers_monotone_on_all_integers (score other : Z) :
  score <= other →
  (∃ r r', level_rank (SIEMConnector._map_severity score) = Some r
           ∧ level_rank (SIEMConnector._map_severity other) = Some r'
           ∧ (r <= r')%nat)
  ∧ (∃ r r', level_rank (SIEMConnector._map_confidence score) = Some r
             ∧ level_rank (SIEMConnector._map_confidence other) = Some r'
             ∧ (r <= r')%nat)
  ∧ (score < 4 → SIEMConnector._map_severity score = "low"%string)
  ∧ (8 <= score → SIEMConnector._map_severity score = "critical"%string)
  ∧ (score < 60 → SIEMConnector._map_confidence score = "low"%string)
  ∧ (80 <= score → SIEMConnector._map_confidence score = "high"%string).
Proof.
  intros Hle. rewrite !map_severity_cases, !map_confidence_cases.
  split; [|split; [|repeat split]].
  - repeat case_decide; try lia; do 2 eexists;
      (split; [reflexivity | split; [reflexivity | lia]]).
  - repeat case_decide; try lia; do 2 eexists;
      (split; [reflexivity | split; [reflexivity | lia]]).
  - intros H. repeat case_decide; try lia. reflexivity.
  - intros H. repeat case_decide; try lia. reflexivity.
  - intros H. repeat case_decide; try lia. reflexivity.
  - intros H. repeat case_decide; try lia. reflexivity.
Qed.

Lemma mappers_monotone_on_all_integers_witness :
  SIEMConnector._map_severity (-3) = "low"%string
  ∧ SIEMConnector._map_severity 250 = "critical"%string.
Proof.
  assert (H1 : -3 <= 250) by lia.
  assert (H2 : 250 <= 250) by lia.
  destruct (mappers_monotone_on_all_integers (-3) 250 H1) as (_ & _ & Hlow & _).
  destruct (mappers_monotone_on_all_integers 250 250 H2) as (_ & _ & _ & Hcrit & _).
  split; [apply Hlow | apply Hcrit]; lia.
Defined.

(** X21.  The credentials each constructor writes into the session: a
    Splunk session always carries "Authorization: Splunk <key>", replacing
    the bearer header; every other class carries the bearer header, and
    every class the JSON content type, exactly when the API key is not
    empty; a QRadar session carries the key in SEC with Version 12.0; only
    the Elastic session gets basic-auth credentials, and only when both the
    username and the password are present and not empty. *)
Theorem connector_sessions_carry_credentials (cfg : SIEMConfig) :
  headers (session (SplunkConnector.new cfg)) !! "Authorization"
  = Some ("Splunk " ++ api_key cfg)%string
  ∧ headers (session (QRadarConnector.new cfg)) !! "SEC" = Some (api_key cfg)
  ∧ headers (session (QRadarConnector.new cfg)) !! "Version" = Some "12.0"%string
  ∧ (∀ connector,
        connector ∈ [SIEMConnector.new cfg; QRadarConnector.new cfg;
                     SentinelConnector.new cfg; ElasticConnector.new cfg] →
        headers (session connector) !! "Authorization"
        = if String.eqb (api_key cfg) ""
          then None else Some ("Bearer " ++ api_key cfg)%string)
  ∧ (∀ connector,
        connector ∈ all_connectors cfg →
        headers (session connector) !! "Content-Type"
        = if String.eqb (api_key cfg) "" then None else Some "application/json"%string)
  ∧ auth (session (ElasticConnector.new cfg))
    = match username cfg, password cfg with
      | Some u, Some p =>
          if String.eqb u "" || String.eqb p "" then None else Some (u, p)
      | _, _ => None
      end
  ∧ (∀ connector,
        connector ∈ [SIEMConnector.new cfg; SplunkConnector.new cfg;
                     QRadarConnector.new cfg; SentinelConnector.new cfg] →
        auth (session connector) = None).
Proof.
  assert (Hbase : ∀ key : string,
             headers (SIEMConnector.__init__ cfg) !! key
             = if String.eqb (api_key cfg) "" then None
               else if decide (key = "Content-Type"%string)
                    then Some "application/json"%string
                    else if decide (key = "Authorization"%string)
                         then Some ("Bearer " ++ api_key cfg)%string
                         else None).
  { intros key. unfold SIEMConnector.__init__. cbn [truthy].
    destruct (String.eqb (api_key cfg) ""); cbn [negb headers].
    - apply lookup_empty.
    - rewrite !lookup_insert. repeat case_decide; subst; try congruence.
      apply lookup_empty. }
  assert (Hauth : auth (SIEMConnector.__init__ cfg) = None).
  { unfold SIEMConnector.__init__. destruct (truthy _); reflexivity. }
  split; [|split; [|split; [|split; [|split; [|split]]]]].
  - cbn [session SplunkConnector.new]. unfold SplunkConnector.__init__.
    cbn [headers]. apply lookup_insert_eq.
  - cbn [session QRadarConnector.new]. unfold QRadarConnector.__init__.
    cbn [headers]. rewrite lookup_insert_ne by discriminate. apply lookup_insert_eq.
  - cbn [session QRadarConnector.new]. unfold QRadarConnector.__init__.
    cbn [headers]. apply lookup_insert_eq.
  - intros connector Hin. apply list_elem_of_In in Hin. cbn [In] in Hin.
    destruct Hin as [<-|[<-|[<-|[<-|[]]]]]; cbn [session SIEMConnector.new
      QRadarConnector.new SentinelConnector.new ElasticConnector.new].
    + rewrite Hbase. destruct (String.eqb (api_key cfg) ""); reflexivity.
    + unfold QRadarConnector.__init__. cbn [headers].
      rewrite !lookup_insert_ne by discriminate. rewrite Hbase.
      destruct (String.eqb (api_key cfg) ""); reflexivity.
    + unfold SentinelConnector.__init__. rewrite Hbase.
      destruct (String.eqb (api_key cfg) ""); reflexivity.
    + unfold ElasticConnector.__init__.
      destruct (username cfg) as [u|], (password cfg) as [p|];
        try destruct (truthy (PyStr u) && truthy (PyStr p)); cbn [headers];
        rewrite Hbase; destruct (String.eqb (api_key cfg) ""); reflexivity.
  - intros connector Hin. apply list_elem_of_In in Hin.
    cbn [all_connectors vendor_connectors In] in Hin.
    destruct Hin as [<-|[<-|[<-|[<-|[<-|[]]]]]]; cbn [session SIEMConnector.new
      SplunkConnector.new QRadarConnector.new SentinelConnector.new
      ElasticConnector.new].
    + rewrite Hbase. destruct (String.eqb (api_key cfg) ""); reflexivity.
    + unfold SplunkConnector.__init__. cbn [headers].
      rewrite !lookup_insert_ne by discriminate. rewrite Hbase.
      destruct (String.eqb (api_key cfg) ""); reflexivity.
    + unfold QRadarConnector.__init__. cbn [headers].
      rewrite !lookup_insert_ne by discriminate. rewrite Hbase.
      destruct (String.eqb (api_key cfg) ""); reflexivity.
    + unfold SentinelConnector.__init__. rewrite Hbase.
      destruct (String.eqb (api_key cfg) ""); reflexivity.
    + unfold ElasticConnector.__init__.
      destruct (username cfg) as [u|], (password cfg) as [p|];
        try destruct (truthy (PyStr u) && truthy (PyStr p)); cbn [headers];
        rewrite Hbase; destruct (String.eqb (api_key cfg) ""); reflexivity.
  - cbn [session ElasticConnector.new]. unfold ElasticConnector.__init__.
    destruct (username cfg) as [u|], (password cfg) as [p|]; try exact Hauth.
    cbn [truthy]. destruct (String.eqb u ""), (String.eqb p ""); cbn [negb andb orb auth];
      try exact Hauth; reflexivity.
  - intros connector Hin. apply list_elem_of_In in Hin. cbn [In] in Hin.
    destruct Hin as [<-|[<-|[<-|[<-|[]]]]]; cbn [session SIEMConnector.new
      SplunkConnector.new QRadarConnector.new SentinelConnector.new];
      [| unfold SplunkConnector.__init__ | unfold QRadarConnector.__init__
       | unfold SentinelConnector.__init__]; cbn [auth]; exact Hauth.
Qed.

(** ** Further properties: ill-typed and colliding fields *)

(** X22.  The document identifier depends only on the text of the IOC
    hash followed by the submitter, with nothing between them: two records
    whose two fields concatenate to the same text share the identifier and
    the document URL even when the fields themselves differ, and a record
    lacking both fields gets the SHA-256 of the empty text. *)
Theorem elastic_doc_id_of_concatenation
        (record1 record2 : gmap string pyval) :
  (py_str (dict_get record1 "ioc_hash" (PyStr ""))
     ++ py_str (dict_get record1 "submitter" (PyStr "")))%string
  = (py_str (dict_get record2 "ioc_hash" (PyStr ""))
       ++ py_str (dict_get record2 "submitter" (PyStr "")))%string →
  ElasticConnector.doc_id record1 = ElasticConnector.doc_id record2
  ∧ (∀ cfg doc1 doc2,
        req_url (ElasticConnector.put_request cfg doc1 record1)
        = req_url (ElasticConnector.put_request cfg doc2 record2))
  ∧ (record1 !! "ioc_hash" = None → record1 !! "submitter" = None →
     ElasticConnector.doc_id record1 = hashlib.sha256_hexdigest []).
Proof.
  intros Hcat.
  assert (Hid : ElasticConnector.doc_id record1 = ElasticConnector.doc_id record2).
  { unfold ElasticConnector.doc_id. rewrite Hcat. reflexivity. }
  split; [exact Hid|]. split.
  - intros cfg doc1 doc2. unfold ElasticConnector.put_request. cbn [req_url].
    rewrite Hid. reflexivity.
  - intros H1 H2. unfold ElasticConnector.doc_id.
    rewrite !dict_get_missing by assumption. reflexivity.
Qed.

Lemma elastic_doc_id_of_concatenation_witness :
  ElasticConnector.doc_id
    (<["ioc_hash" := PyStr "ab"]> (<["submitter" := PyStr "c"]> ∅))
  = ElasticConnector.doc_id
      (<["ioc_hash" := PyStr "a"]> (<["submitter" := PyStr "bc"]> ∅)).
Proof.
  assert (Hcat :
    (py_str (dict_get (<["ioc_hash" := PyStr "ab"]> (<["submitter" := PyStr "c"]> ∅))
                      "ioc_hash" (PyStr ""))
       ++ py_str (dict_get (<["ioc_hash" := PyStr "ab"]> (<["submitter" := PyStr "c"]> ∅))
                           "submitter" (PyStr "")))%string
    = (py_str (dict_get (<["ioc_hash" := PyStr "a"]> (<["submitter" := PyStr "bc"]> ∅))
                        "ioc_hash" (PyStr ""))
         ++ py_str (dict_get (<["ioc_hash" := PyStr "a"]> (<["submitter" := PyStr "bc"]> ∅))
                             "submitter" (PyStr "")))%string)
    by (vm_compute; reflexivity).
  destruct (elastic_doc_id_of_concatenation _ _ Hcat) as [Hid _].
  exact Hid.
Defined.

Lemma str_items_of_strings (parts : list string) :
  str_items (List.map PyStr parts) = Return parts.
Proof.
  induction parts as [|p parts IH]; [reflexivity|].
  cbn [List.map str_items str_item]. rewrite IH. reflexivity.
Qed.

(** X23.  Techniques given as one string instead of a list are joined
    character by character: the QRadar event and the Sentinel log entry
    are those of the record whose techniques are the list of the string's
    characters. *)
Theorem techniques_string_is_joined_by_character
        (env : Env) (intelligence_data : gmap string pyval) (techniques : string) :
  intelligence_data !! "mitre_techniques" = Some (PyStr techniques) →
  QRadarConnector.qradar_event intelligence_data
  = QRadarConnector.qradar_event
      (<["mitre_techniques" := PyList (List.map PyStr (str_chars techniques))]>
         intelligence_data)
  ∧ SentinelConnector.log_data env intelligence_data
    = SentinelConnector.log_data env
        (<["mitre_techniques" := PyList (List.map PyStr (str_chars techniques))]>
           intelligence_data).
Proof.
  intros Htech.
  assert (Hjoin : ∀ sep,
             py_join sep (dict_get intelligence_data "mitre_techniques" (PyList []))
             = py_join sep (PyList (List.map PyStr (str_chars techniques)))).
  { intros sep. unfold dict_get. rewrite Htech. cbn [default py_join].
    rewrite str_items_of_strings. reflexivity. }
  unfold QRadarConnector.qradar_event, SentinelConnector.log_data.
  rewrite ?dict_get_insert_eq.
  rewrite ?dict_get_insert_ne by discriminate.
  rewrite !Hjoin. split; reflexivity.
Qed.

Lemma techniques_string_is_joined_by_character_witness :
  QRadarConnector.qradar_event (<["mitre_techniques" := PyStr "T1055"]> ∅)
  = QRadarConnector.qradar_event
      (<["mitre_techniques" := PyList (List.map PyStr (str_chars "T1055"))]>
         (<["mitre_techniques" := PyStr "T1055"]> ∅)).
Proof.
  assert (Htech : (<["mitre_techniques" := PyStr "T1055"]> ∅ : gmap string pyval)
                    !! "mitre_techniques" = Some (PyStr "T1055"))
    by apply lookup_insert_eq.
  destruct (techniques_string_is_joined_by_character offline_env _ _ Htech) as [H _].
  exact H.
Defined.

(** X24.  A confidence score that is present but is not a number makes the
    Splunk, QRadar and Elastic pushes return false whatever the transport
    would answer; the Sentinel connector forwards the value as it is: its
    log entry is built exactly when it is built for the record without
    that field, and the ConfidenceScore of the entry is that value. *)
Theorem non_numeric_confidence_fails_all_but_sentinel
        (cfg : SIEMConfig) (env : Env)
        (intelligence_data : gmap string pyval) (confidence : pyval) :
  intelligence_data !! "confidence_score" = Some confidence →
  (∀ n, confidence ≠ PyInt n) →
  (∀ b, confidence ≠ PyBool b) →
  (∀ connector,
      connector ∈ [SplunkConnector.new cfg; QRadarConnector.new cfg;
                   ElasticConnector.new cfg] →
      push_intelligence connector env intelligence_data = Return false)
  ∧ ((∃ log, SentinelConnector.log_data env intelligence_data = Return log)
     ↔ ∃ log, SentinelConnector.log_data env
                (delete "confidence_score" intelligence_data) = Return log)
  ∧ (∀ log, SentinelConnector.log_data env intelligence_data = Return log →
            ∃ log_entry,
              log = PyList [log_entry]
              ∧ dict_field log_entry "ConfidenceScore" = Some confidence).
Proof.
  intros Hconf Hint Hbool.
  assert (Hop : int_operand (dict_get intelligence_data "confidence_score" (PyInt 0))
                = Raise TypeError).
  { unfold dict_get. rewrite Hconf. cbn [default].
    destruct confidence; try reflexivity; [destruct (Hbool b) | destruct (Hint n)];
      reflexivity. }
  split; [|split].
  3:{ intros log. unfold SentinelConnector.log_data.
      destruct (int_operand (dict_get intelligence_data "severity" (PyInt 1)));
        cbn [mbind result_bind]; [|discriminate].
      destruct (py_join "," (dict_get intelligence_data "mitre_techniques" (PyList [])));
        cbn [mbind result_bind]; [|discriminate].
      intros [= <-]. eexists. split; [reflexivity|].
      cbn. unfold dict_get. rewrite Hconf. reflexivity. }
  - intros connector Hin. apply list_elem_of_In in Hin. cbn [In] in Hin.
    destruct Hin as [<-|[<-|[<-|[]]]]; cbn [push_intelligence
      SplunkConnector.new QRadarConnector.new ElasticConnector.new].
    + unfold SplunkConnector.push_intelligence, SplunkConnector.splunk_event.
      rewrite Hop.
      destruct (int_operand (dict_get intelligence_data "severity" (PyInt 1)));
        reflexivity.
    + unfold QRadarConnector.push_intelligence, QRadarConnector.qradar_event.
      rewrite Hop.
      destruct (int_operand (dict_get intelligence_data "severity" (PyInt 1)));
        reflexivity.
    + unfold ElasticConnector.push_intelligence, ElasticConnector.doc.
      rewrite Hop. reflexivity.
  - assert (Hget : ∀ key dflt, key ≠ "confidence_score"%string →
               dict_get (delete "confidence_score" intelligence_data) key dflt
               = dict_get intelligence_data key dflt).
    { intros key dflt Hne. unfold dict_get.
      rewrite lookup_delete_ne by congruence. reflexivity. }
    unfold SentinelConnector.log_data.
    rewrite (Hget "severity"%string), (Hget "mitre_techniques"%string)
      by discriminate.
    destruct (int_operand (dict_get intelligence_data "severity" (PyInt 1)));
      cbn [mbind result_bind]; [|split; intros [? [=]]].
    destruct (py_join "," (dict_get intelligence_data "mitre_techniques" (PyList [])));
      cbn [mbind result_bind]; [|split; intros [? [=]]].
    split; intros _; eexists; reflexivity.
Qed.

Lemma non_numeric_confidence_fails_all_but_sentinel_witness :
  push_intelligence (ElasticConnector.new sample_config) scenario_env
                    (<["confidence_score" := PyStr "high"]> sample_intelligence)
  = Return false.
Proof.
  assert (Hconf : <["confidence_score" := PyStr "high"]> sample_intelligence
                    !! "confidence_score" = Some (PyStr "high"))
    by apply lookup_insert_eq.
  assert (Hint : ∀ n, PyStr "high" ≠ PyInt n) by discriminate.
  assert (Hbool : ∀ b, PyStr "high" ≠ PyBool b) by discriminate.
  destruct (non_numeric_confidence_fails_all_but_sentinel
              sample_config scenario_env _ _ Hconf Hint Hbool) as (Hpush & _ & _).
  apply Hpush. apply list_elem_of_In. cbn [In]. tauto.
Defined.

(** ** Further properties: pushes that raise outside the Exception
    hierarchy *)



